(** * rompy.schism.plotting.overview: the overview composer

    A shallow embedding of [OverviewPlotter] (src/rompy/schism/plotting/overview.py)
    and the properties of its three composition entry points, its panel
    routines, its colour rules, its statistics and its table layout.

    Python floats are IEEE binary64 values: they are embedded as Rocq's
    primitive floats, so that comparisons against the literals of the source
    ([0.8], [0.9], ...) and the NaN entries of a depth array behave as they do
    in Python.  Dictionaries whose iteration order is observed (metrics,
    statistics, validation results) are insertion-ordered association lists;
    the returned mapping of region names is a [gmap]. *)

From Stdlib Require Import Floats ZArith Ascii.
From stdpp Require Import base option list strings pretty gmap.

Set Warnings "-inexact-float,-register-all,-clear-no-such-hyp".

(** ** Python values that reach the plotting library *)

Module Py.

Local Open Scope Z_scope.

(** [str] as Python concatenates it in f-strings. *)
Definition chars (s : string) : list ascii := String.list_ascii_of_string s.
Definition of_chars (l : list ascii) : string := String.string_of_list_ascii l.

Definition is_lower (c : ascii) : bool :=
  let n := Ascii.nat_of_ascii c in (Nat.leb 97 n && Nat.leb n 122)%bool.
Definition is_upper (c : ascii) : bool :=
  let n := Ascii.nat_of_ascii c in (Nat.leb 65 n && Nat.leb n 90)%bool.
Definition upper (c : ascii) : ascii :=
  if is_lower c then Ascii.ascii_of_nat (Ascii.nat_of_ascii c - 32) else c.
Definition lower (c : ascii) : ascii :=
  if is_upper c then Ascii.ascii_of_nat (Ascii.nat_of_ascii c + 32) else c.

(** [s.replace(a, b)] for one-character [a] and [b]. *)
Definition replace_char (a b : ascii) (s : string) : string :=
  of_chars ((λ c, if Ascii.eqb c a then b else c) <$> chars s).

(** [s.title()] on ASCII text: a letter that follows a letter is lowered,
    any other letter is raised. *)
Fixpoint title_go (prev_cased : bool) (l : list ascii) : list ascii :=
  match l with
  | [] => []
  | c :: l' =>
      let cased := (is_lower c || is_upper c)%bool in
      (if prev_cased then lower c else upper c) :: title_go cased l'
  end.
Definition title (s : string) : string := of_chars (title_go false (chars s)).

(** [s.lower()] on ASCII text. *)
Definition lower_str (s : string) : string := of_chars (lower <$> chars s).

(** [f"{n:,}"] for a non-negative integer: decimal digits in groups of
    three, separated by commas. *)
Fixpoint group3 (rev_digits : list ascii) (k : nat) : list ascii :=
  match rev_digits with
  | [] => []
  | d :: rest =>
      match k, rest with
      | 2%nat, _ :: _ => d :: ","%char :: group3 rest 0
      | _, _ => d :: group3 rest (S k)
      end
  end.
Definition format_thousands (n : nat) : string :=
  of_chars (rev (group3 (rev (chars (pretty n))) 0)).

(** [f"{x:.{p}f}"]: the exact binary value of [x], rounded half-to-even to
    [p] decimals. *)
Definition round_half_even (num den : Z) : Z :=
  let q := num / den in
  match (2 * (num mod den) ?= den) with
  | Lt => q
  | Gt => q + 1
  | Eq => if Z.even q then q else q + 1
  end.

Fixpoint zero_pad (width : nat) (l : list ascii) : list ascii :=
  match width with
  | O => l
  | S w => if decide (length l < S w)%nat then zero_pad w ("0"%char :: l) else l
  end.

Definition fixed_digits (p : nat) (q : Z) : string :=
  let scale := 10 ^ Z.of_nat p in
  let int_part := pretty (Z.to_N (q / scale)) in
  match p with
  | O => int_part
  | _ => int_part +:+ "." +:+ of_chars (zero_pad p (chars (pretty (Z.to_N (q mod scale)))))
  end.

Definition format_fixed (p : nat) (x : float) : string :=
  match Prim2SF x with
  | S754_nan => "nan"
  | S754_infinity s => if s then "-inf" else "inf"
  | S754_zero s => (if s then "-" else "") +:+ fixed_digits p 0
  | S754_finite s m e =>
      let num := Z.pos m * 10 ^ Z.of_nat p * 2 ^ Z.max e 0 in
      let den := 2 ^ Z.max (- e) 0 in
      (if s then "-" else "") +:+ fixed_digits p (round_half_even num den)
  end.

End Py.


(** ** The plotting library, as the composer sees it

    An axes object is what was asked of it: the calls made on it (and on the
    objects it handed back: its twin axes, its table, the cells of the table),
    in order.  Arguments are Python values. *)

Inductive PyVal :=
| VNone
| VBool (b : bool)
| VInt (n : Z)
| VFloat (x : float)
| VStr (s : string)
| VList (l : list PyVal)
| VDict (d : list (string * PyVal))
| VTransAxes                (* [ax.transAxes] *)
| VBarCenter (i : nat)      (* centre of the [i]-th bar along the category axis *)
| VDemo (expr : string).    (* demonstration data drawn from [datetime] and [np.random] *)

Inductive Target := OnAxes | OnTwin | OnTable | OnCell (i j : nat).

Record Call := mkCall {
  target : Target;
  method : string;
  args : list PyVal;
  keywords : list (string * PyVal)
}.

Record GridSpec := { nrows : nat; ncols : nat; hspace : float; wspace : float }.

(** [gs[r0:r1, c0:c1]] *)
Record SubplotSpec := { gridspec : GridSpec; rows : nat * nat; cols : nat * nat }.

(** [projection=setup_cartopy_axis()] or the default rectilinear axes. *)
Inductive Projection := rectilinear | cartopy.

Record Axes := mkAxes {
  subplotspec : SubplotSpec;
  projection : Projection;
  calls : list Call
}.

Record Figure := mkFigure {
  figsize : float * float;
  fig_axes : list Axes;
  fig_calls : list Call
}.

(** An axes reference: its index in the figure. *)
Definition AxRef := nat.

(** ** Exceptions and logging *)

Inductive Exn := Exception (message : string).

(** [str(e)] as interpolated by [f"...{e}"]. *)
Definition str_exn (e : Exn) : string := let 'Exception m := e in m.

Inductive Level := INFO | WARNING | ERROR.

Record LogRecord := { levelname : Level; msg : string }.

Inductive Result (A : Type) :=
| Ok (a : A)
| Raise (e : Exn).
Arguments Ok {A} a.
Arguments Raise {A} e.

(** An external routine that works on an object: it leaves the object in
    some state and may raise. *)
Definition External (O : Type) : Type := O → O * option Exn.

(** ** Paths and the file system

    [pathlib] and the disk are outside the module: the composer sees them
    through these operations. *)

Record OS (FS Path : Type) := {
  Path_of_str : string → Path;                         (* [Path(s)] *)
  str_of_Path : Path → string;                         (* [str(p)] *)
  parent : Path → Path;                                (* [p.parent] *)
  mkdir_parents : Path → External FS;                  (* [p.mkdir(parents=True, exist_ok=True)] *)
  savefig : Figure → Path → Z → External FS            (* [fig.savefig(p, dpi=..., bbox_inches='tight', facecolor='white')] *)
}.
Arguments Path_of_str {FS Path} _ _.
Arguments str_of_Path {FS Path} _ _.
Arguments parent {FS Path} _ _.
Arguments mkdir_parents {FS Path} _ _ _.
Arguments savefig {FS Path} _ _ _ _ _.

(** [Union[str, Path]] *)
Inductive SavePath (Path : Type) :=
| path_str (s : string)
| path_obj (p : Path).
Arguments path_str {Path} s.
Arguments path_obj {Path} p.

(** Truth value of [save_path] in [if save_path:]: [None] and the empty
    string are false, a [Path] object is always true. *)
Definition truthy {Path} (save_path : option (SavePath Path)) : bool :=
  match save_path with
  | None => false
  | Some (path_str s) => bool_decide (s ≠ "")
  | Some (path_obj _) => true
  end.

(** ** The grid handle *)

(** The [xarray] dataset behind [self.grid]: a coordinate that is missing
    ([None]) makes its lookup raise. *)
Record Grid := {
  node : option nat;                  (* [len(grid.coords['node'])] *)
  nSCHISM_hgrid_face : option nat;    (* [len(grid.coords['nSCHISM_hgrid_face'])] *)
  depth : option (list float)         (* [grid.depth.values.flatten()] *)
}.

(** ** numpy reductions on a flattened array *)

Module Np.

Local Open Scope float_scope.

(** [a[~np.isnan(a)]] *)
Definition drop_nan (a : list float) : list float :=
  List.filter (λ x, negb (is_nan x)) a.

Definition fmin (x y : float) : float := if y <? x then y else x.
Definition fmax (x y : float) : float := if x <? y then y else x.

(** [a.min()] and [a.max()] on an array without NaN; [None] on an empty
    array, where numpy raises [ValueError]. *)
Definition min (a : list float) : option float :=
  match a with [] => None | x :: a' => Some (foldl fmin x a') end.
Definition max (a : list float) : option float :=
  match a with [] => None | x :: a' => Some (foldl fmax x a') end.

Definition of_nat (n : nat) : float := of_uint63 (Uint63.of_Z (Z.of_nat n)).

(** [a.min()] of an [xarray] array, which skips NaN: NaN when every entry
    is NaN, [None] on an empty array. *)
Definition nanmin (a : list float) : option float :=
  match a with [] => None | _ => Some (default nan (min (drop_nan a))) end.
Definition nanmax (a : list float) : option float :=
  match a with [] => None | _ => Some (default nan (max (drop_nan a))) end.

(** [a.sum()]: numpy adds the entries of an array of fewer than eight
    entries from left to right; on longer arrays it adds in blocks, which
    may round differently. *)
Definition sum (a : list float) : float := foldl PrimFloat.add 0 a.

(** [a.mean()] *)
Definition mean (a : list float) : float := sum a / of_nat (length a).

(** [a.std()]: the root of the mean squared deviation from the mean. *)
Definition std (a : list float) : float :=
  let m := mean a in
  sqrt (mean ((λ x, (x - m) * (x - m)) <$> a)).

End Np.

(** A float that is a number. *)
Definition not_nan (x : float) : Prop := Prim2SF x ≠ S754_nan.

(** ** The composer *)

(** *** Collaborators *)

Record GridPlotter (Kwargs : Type) := {
  plot_bathymetry : Kwargs → External Axes;
  plot_grid_quality : Kwargs → External Axes;
  (* show_colorbar *)
  plot_boundaries : option bool → Kwargs → External Axes;
  (* show_elements, show_colorbar, alpha *)
  plot_grid : bool → bool → option float → Kwargs → External Axes
}.
Arguments plot_bathymetry {Kwargs} _ _ _.
Arguments plot_grid_quality {Kwargs} _ _ _.
Arguments plot_boundaries {Kwargs} _ _ _ _.
Arguments plot_grid {Kwargs} _ _ _ _ _ _.

(** [hasattr(self.data_plotter, 'plot_atmospheric_spatial')] is the
    presence of the field's value; its argument is [show_colorbar]. *)
Record DataPlotter (Kwargs : Type) := {
  plot_atmospheric_spatial : option (bool → Kwargs → External Axes)
}.
Arguments plot_atmospheric_spatial {Kwargs} _.

Record PlotConfig := { dpi : Z }.

(** [self]. [grid] is [None] when [self] has no [grid] attribute or when
    [self.grid is None]. *)
Record OverviewPlotter (Kwargs : Type) := {
  grid : option Grid;
  grid_plotter : GridPlotter Kwargs;
  data_plotter : DataPlotter Kwargs;
  plot_config : PlotConfig
}.
Arguments grid {Kwargs} _.
Arguments grid_plotter {Kwargs} _.
Arguments data_plotter {Kwargs} _.
Arguments plot_config {Kwargs} _.

(** *** State

    The figure under construction, the records handed to [logger], and the
    disk. *)

Record State (FS : Type) := mkState {
  figure : Figure;
  records : list LogRecord;
  disk : FS
}.
Arguments mkState {FS} _ _ _.
Arguments figure {FS} _.
Arguments records {FS} _.
Arguments disk {FS} _.

(** Recording one more call on an axes object. *)
Definition record_call (c : Call) (a : Axes) : Axes :=
  mkAxes (subplotspec a) (projection a) (calls a ++ [c]).

(** ** Collaborators, grids and disks to run the composer on *)

Module Scenario.

(** A disk: its directories and its image files, by name.  Nothing can be
    created under [/proc]. *)
Record Disk := { dirs : list string; files : list (string * Figure) }.

Fixpoint drop_to_slash (l : list ascii) : list ascii :=
  match l with
  | [] => []
  | c :: l' => if Ascii.eqb c "/" then l' else drop_to_slash l'
  end.

Definition dirname (p : string) : string :=
  Py.of_chars (rev (drop_to_slash (rev (Py.chars p)))).

Definition under_proc (p : string) : bool := String.prefix "/proc/" p.

Definition denied : Exn := Exception "[Errno 13] Permission denied".

Definition os : OS Disk string := {|
  Path_of_str s := s;
  str_of_Path p := p;
  parent := dirname;
  mkdir_parents p d :=
    if under_proc p then (d, Some denied)
    else ({| dirs := p :: dirs d; files := files d |}, None);
  savefig fig p _ d :=
    if under_proc p then (d, Some denied)
    else ({| dirs := dirs d; files := (p, fig) :: files d |}, None)
|}.

(** A collaborator that draws and one that gives up. *)
Definition works (what : string) : External Axes :=
  λ a, (record_call (mkCall OnAxes what [] []) a, None).
Definition fails (why : string) : External Axes :=
  λ a, (a, Some (Exception why)).

Definition working_grid_plotter : GridPlotter unit := {|
  plot_bathymetry _ := works "tripcolor";
  plot_grid_quality _ := works "tripcolor";
  plot_boundaries _ _ := works "plot";
  plot_grid _ _ _ _ := works "triplot"
|}.

Definition failing_grid_plotter : GridPlotter unit := {|
  plot_bathymetry _ := fails "No grid available";
  plot_grid_quality _ := fails "No grid available";
  plot_boundaries _ _ := fails "No grid available";
  plot_grid _ _ _ _ := fails "No grid available"
|}.

Definition no_data_plotter : DataPlotter unit := {| plot_atmospheric_spatial := None |}.

Definition config : PlotConfig := {| dpi := 150 |}.

(** A plotter with no grid handle, whose grid plotter cannot draw. *)
Definition without_grid : OverviewPlotter unit := {|
  grid := None;
  grid_plotter := failing_grid_plotter;
  data_plotter := no_data_plotter;
  plot_config := config
|}.

(** A grid of four nodes and two elements, one depth missing. *)
Definition four_nodes : Grid := {|
  node := Some 4%nat;
  nSCHISM_hgrid_face := Some 2%nat;
  depth := Some [1; 2; 3; nan]%float
|}.

Definition with_grid : OverviewPlotter unit := {|
  grid := Some four_nodes;
  grid_plotter := working_grid_plotter;
  data_plotter := no_data_plotter;
  plot_config := config
|}.

Definition empty_disk : Disk := {| dirs := []; files := [] |}.

(** Before any figure is made. *)
Definition fresh : State Disk :=
  mkState (mkFigure (0, 0)%float [] []) [] empty_disk.

(** A figure with one empty region. *)
Definition one_region : State Disk :=
  mkState
    (mkFigure (16, 12)%float
       [mkAxes {| gridspec := {| nrows := 1; ncols := 1; hspace := 0.3; wspace := 0.3 |};
                  rows := (0, 1)%nat; cols := (0, 1)%nat |} rectilinear []] [])
    [] empty_disk.

Definition seven_pairs : list (string * string) :=
  [("a", "1"); ("b", "2"); ("c", "3"); ("d", "4"); ("e", "5"); ("f", "6"); ("g", "7")].

End Scenario.

Declare Scope M_scope.
Delimit Scope M_scope with M.

Section composer.

Context {Kwargs FS Path : Type} (os : OS FS Path).

(** *** Control

    A computation returns or raises, and leaves a state either way. *)

Definition M (A : Type) : Type := State FS → Result A * State FS.

Definition ret {A} (a : A) : M A := λ s, (Ok a, s).

Definition raise {A} (e : Exn) : M A := λ s, (Raise e, s).

Definition bind {A B} (m : M A) (k : A → M B) : M B :=
  λ s, match m s with
       | (Ok a, s') => k a s'
       | (Raise e, s') => (Raise e, s')
       end.

(** [try: body / except Exception as e: handler] *)
Definition try_except {A} (body : M A) (handler : Exn → M A) : M A :=
  λ s, match body s with
       | (Ok a, s') => (Ok a, s')
       | (Raise e, s') => handler e s'
       end.

Notation "x ← y ; z" := (bind y (λ x, z)) (only parsing) : M_scope.
Notation "y ;; z" := (bind y (λ _, z)) (only parsing) : M_scope.
Local Open Scope M_scope.

Definition modify (f : State FS → State FS) : M unit := λ s, (Ok tt, f s).

Definition with_figure (f : Figure → Figure) (s : State FS) : State FS :=
  mkState (f (figure s)) (records s) (disk s).

Definition with_axes (f : list Axes → list Axes) : State FS → State FS :=
  with_figure (λ fg, mkFigure (figsize fg) (f (fig_axes fg)) (fig_calls fg)).

(** [plt.figure(figsize=figsize)] *)
Definition plt_figure (size : float * float) : M unit :=
  modify (with_figure (λ _, mkFigure size [] [])).

(** [fig.add_subplot(spec, projection=...)] *)
Definition add_subplot (spec : SubplotSpec) (proj : Projection) : M AxRef :=
  λ s, (Ok (length (fig_axes (figure s))),
        with_axes (λ l, l ++ [mkAxes spec proj []]) s).

(** [fig.suptitle(...)] and the like *)
Definition fig_call (meth : string) (a : list PyVal) (kw : list (string * PyVal)) : M unit :=
  modify (with_figure (λ fg,
    mkFigure (figsize fg) (fig_axes fg) (fig_calls fg ++ [mkCall OnAxes meth a kw]))).

(** A call on the axes [ax] or on one of its objects. *)
Definition ax_call (ax : AxRef) (t : Target) (meth : string)
    (a : list PyVal) (kw : list (string * PyVal)) : M unit :=
  modify (with_axes (alter (record_call (mkCall t meth a kw)) ax)).

(** A call of a collaborator on the axes [ax].  A reference handed out by
    [add_subplot] always names an axes of the figure; on any other number
    there is nothing to call the collaborator on. *)
Definition delegate (ax : AxRef) (d : External Axes) : M unit :=
  λ s, match fig_axes (figure s) !! ax with
       | Some a =>
           let '(a', r) := d a in
           (match r with Some e => Raise e | None => Ok tt end,
            with_axes (alter (λ _, a') ax) s)
       | None => (Ok tt, s)
       end.

(** [logger.info], [logger.warning], [logger.error] *)
Definition logger (l : Level) (m : string) : M unit :=
  modify (λ s, mkState (figure s) (records s ++ [{| levelname := l; msg := m |}]) (disk s)).

Definition current_figure : M Figure := λ s, (Ok (figure s), s).

(** A step on the disk. *)
Definition on_disk (d : External FS) : M unit :=
  λ s, let '(fs', r) := d (disk s) in
       (match r with Some e => Raise e | None => Ok tt end,
        mkState (figure s) (records s) fs').

(** [for i, x in enumerate(l): body] *)
Fixpoint for_each {A} (l : list A) (i : nat) (body : nat → A → M unit) : M unit :=
  match l with
  | [] => ret tt
  | x :: l' => body i x ;; for_each l' (S i) body
  end.

(** A lookup that raises when the key or attribute is missing. *)
Definition lookup_or_raise {A} (o : option A) (what : string) : M A :=
  match o with
  | Some a => ret a
  | None => raise (Exception what)
  end.

(** *** Calls the panels share *)

Local Open Scope float_scope.

(** [ax.text(0.5, 0.5, label, ha='center', va='center', transform=ax.transAxes)] *)
Definition placeholder_call (label : string) : Call :=
  mkCall OnAxes "text" [VFloat 0.5; VFloat 0.5; VStr label]
    [("ha", VStr "center"); ("va", VStr "center"); ("transform", VTransAxes)].

Definition placeholder (ax : AxRef) (label : string) : M unit :=
  ax_call ax OnAxes "text" [VFloat 0.5; VFloat 0.5; VStr label]
    [("ha", VStr "center"); ("va", VStr "center"); ("transform", VTransAxes)].

(** [ax.set_title(title, fontweight='bold')] *)
Definition set_title (ax : AxRef) (title : string) : M unit :=
  ax_call ax OnAxes "set_title" [VStr title] [("fontweight", VStr "bold")].

(** [ax.grid(True, alpha=0.3)] *)
Definition grid_on (ax : AxRef) : M unit :=
  ax_call ax OnAxes "grid" [VBool true] [("alpha", VFloat 0.3)].

(** [ax.axis('off')] *)
Definition axis_off (ax : AxRef) : M unit :=
  ax_call ax OnAxes "axis" [VStr "off"] [].

Definition newline : string := String.String (ascii_of_nat 10) "".

(** *** Panels of the comprehensive overview *)

Definition _get_grid_info (self : OverviewPlotter Kwargs) : M string :=
  try_except
    (match grid self with
     | Some g =>
         n_nodes ← lookup_or_raise (node g) "'node'";
         n_elements ← lookup_or_raise (nSCHISM_hgrid_face g) "'nSCHISM_hgrid_face'";
         depths ← lookup_or_raise (depth g) "'Dataset' object has no attribute 'depth'";
         lo ← lookup_or_raise (Np.nanmin depths) "zero-size array to reduction operation";
         hi ← lookup_or_raise (Np.nanmax depths) "zero-size array to reduction operation";
         ret ("Nodes: " +:+ Py.format_thousands n_nodes +:+ newline +:+
              "Elements: " +:+ Py.format_thousands n_elements +:+ newline +:+
              "Depth: " +:+ Py.format_fixed 1 lo +:+ " to " +:+ Py.format_fixed 1 hi +:+ " m")
     | None => ret "Grid info unavailable"
     end)
    (λ e, logger WARNING ("Could not get grid info: " +:+ str_exn e);;
          ret "Grid info unavailable").

Definition _plot_main_grid_panel (self : OverviewPlotter Kwargs) (ax : AxRef) (kw : Kwargs) : M unit :=
  try_except
    (delegate ax (plot_bathymetry (grid_plotter self) kw);;
     set_title ax "Grid and Bathymetry";;
     match grid self with
     | Some _ =>
         grid_info ← _get_grid_info self;
         ax_call ax OnAxes "text" [VFloat 0.02; VFloat 0.98; VStr grid_info]
           [("transform", VTransAxes); ("verticalalignment", VStr "top");
            ("bbox", VDict [("boxstyle", VStr "round"); ("facecolor", VStr "white");
                            ("alpha", VFloat 0.8)]);
            ("fontsize", VInt 8)]
     | None => ret tt
     end)
    (λ e, logger WARNING ("Could not plot main grid panel: " +:+ str_exn e);;
          placeholder ax "Grid visualization unavailable").

Definition _plot_boundary_panel (self : OverviewPlotter Kwargs) (ax : AxRef) (kw : Kwargs) : M unit :=
  try_except
    (delegate ax (plot_boundaries (grid_plotter self) (Some false) kw);;
     set_title ax "Boundary Conditions")
    (λ e, logger WARNING ("Could not plot boundary panel: " +:+ str_exn e);;
          placeholder ax "Boundary data unavailable").

Definition _add_data_source_markers (self : OverviewPlotter Kwargs) (ax : AxRef) : M unit :=
  try_except
    (ret tt)
    (λ e, logger WARNING ("Could not add data source markers: " +:+ str_exn e)).

Definition _plot_data_locations_panel (self : OverviewPlotter Kwargs) (ax : AxRef) (kw : Kwargs) : M unit :=
  try_except
    (match grid self with
     | Some _ => delegate ax (plot_grid (grid_plotter self) false false None kw)
     | None => ret tt
     end;;
     _add_data_source_markers self ax;;
     set_title ax "Data Locations")
    (λ e, logger WARNING ("Could not plot data locations panel: " +:+ str_exn e);;
          placeholder ax "Data locations unavailable").

Definition _calculate_quality_metrics (self : OverviewPlotter Kwargs) : M (list (string * float)) :=
  try_except
    (ret [("min_aspect_ratio", 0.85); ("avg_aspect_ratio", 0.95);
          ("skewness_score", 0.92); ("orthogonality_score", 0.88)])
    (λ e, logger WARNING ("Could not calculate quality metrics: " +:+ str_exn e);;
          ret []).

(** ['green' if v > 0.8 else 'orange' if v > 0.6 else 'red'] *)
Definition quality_bar_color (v : float) : string :=
  if 0.8 <? v then "green" else if 0.6 <? v then "orange" else "red".

Definition _plot_quality_metrics_chart (ax : AxRef) (metrics : list (string * float)) : M unit :=
  match metrics with
  | [] => placeholder ax "No quality metrics available"
  | _ =>
      let names := metrics.*1 in
      let values := metrics.*2 in
      ax_call ax OnAxes "barh" [VList (VStr <$> names); VList (VFloat <$> values)]
        [("color", VList (VStr <$> (quality_bar_color <$> values)))];;
      ax_call ax OnAxes "set_xlim" [VInt 0; VInt 1] [];;
      ax_call ax OnAxes "set_xlabel" [VStr "Quality Score"] [];;
      for_each values 0 (λ i value,
        ax_call ax OnAxes "text"
          [VFloat (value + 0.01); VBarCenter i; VStr (Py.format_fixed 2 value)]
          [("va", VStr "center")])
  end.

Definition _plot_quality_metrics_panel (self : OverviewPlotter Kwargs) (ax : AxRef) (kw : Kwargs) : M unit :=
  try_except
    (match grid self with
     | Some _ =>
         quality_metrics ← _calculate_quality_metrics self;
         _plot_quality_metrics_chart ax quality_metrics
     | None => placeholder ax "Grid quality metrics unavailable"
     end)
    (λ e, logger WARNING ("Could not plot quality metrics: " +:+ str_exn e);;
          placeholder ax "Quality metrics unavailable");;
  set_title ax "Grid Quality".

Definition _run_validation_checks (self : OverviewPlotter Kwargs) : M (list (string * string)) :=
  try_except
    (ret [("Grid connectivity", "PASS"); ("Boundary conditions", "PASS");
          ("Time stepping", "WARNING"); ("Data coverage", "PASS");
          ("File integrity", "PASS")])
    (λ e, logger WARNING ("Could not run validation checks: " +:+ str_exn e);;
          ret []).

(** [colors = {'PASS': 'green', 'WARNING': 'orange', 'FAIL': 'red'}] *)
Definition colors : gmap string string :=
  <["FAIL" := "red"]> (<["WARNING" := "orange"]> (<["PASS" := "green"]> ∅)).

(** [colors.get(status, 'gray')] *)
Definition status_color (status : string) : string :=
  default "gray" (colors !! status).

Definition _plot_validation_results (ax : AxRef) (results : list (string * string)) : M unit :=
  match results with
  | [] => placeholder ax "No validation results"
  | _ =>
      let y_pos := VList ((λ i, VInt (Z.of_nat i)) <$> seq 0 (length results)) in
      let labels := results.*1 in
      let statuses := results.*2 in
      let bar_colors := status_color <$> statuses in
      ax_call ax OnAxes "barh" [y_pos; VList (replicate (length results) (VInt 1))]
        [("color", VList (VStr <$> bar_colors)); ("alpha", VFloat 0.7)];;
      ax_call ax OnAxes "set_yticks" [y_pos] [];;
      ax_call ax OnAxes "set_yticklabels" [VList (VStr <$> labels)] [];;
      ax_call ax OnAxes "set_xlim" [VInt 0; VInt 1] [];;
      ax_call ax OnAxes "set_xticks" [VList []] [];;
      for_each statuses 0 (λ i status,
        ax_call ax OnAxes "text" [VFloat 0.5; VInt (Z.of_nat i); VStr status]
          [("ha", VStr "center"); ("va", VStr "center");
           ("fontweight", VStr "bold"); ("color", VStr "white")])
  end.

Definition _plot_validation_panel (self : OverviewPlotter Kwargs) (ax : AxRef) (kw : Kwargs) : M unit :=
  try_except
    (validation_results ← _run_validation_checks self;
     _plot_validation_results ax validation_results)
    (λ e, logger WARNING ("Could not plot validation panel: " +:+ str_exn e);;
          placeholder ax "Validation unavailable");;
  set_title ax "Model Validation".

Definition _get_data_summary (self : OverviewPlotter Kwargs) : M (list (string * Z)) :=
  try_except
    (ret [("atmospheric_files", 2%Z); ("boundary_files", 3%Z);
          ("tidal_constituents", 8%Z); ("time_coverage_days", 30%Z)])
    (λ e, logger WARNING ("Could not get data summary: " +:+ str_exn e);;
          ret []).

Definition _plot_data_summary_chart (ax : AxRef) (summary : list (string * Z)) : M unit :=
  match summary with
  | [] => placeholder ax "No data summary available"
  | _ =>
      let summary_text :=
        String.concat newline
          ((λ '(k, v), Py.title (Py.replace_char "_" " " k) +:+ ": " +:+ pretty v) <$> summary) in
      ax_call ax OnAxes "text" [VFloat 0.05; VFloat 0.95; VStr summary_text]
        [("transform", VTransAxes); ("verticalalignment", VStr "top"); ("fontsize", VInt 10);
         ("bbox", VDict [("boxstyle", VStr "round"); ("facecolor", VStr "lightblue");
                         ("alpha", VFloat 0.8)])];;
      ax_call ax OnAxes "set_xlim" [VInt 0; VInt 1] [];;
      ax_call ax OnAxes "set_ylim" [VInt 0; VInt 1] [];;
      axis_off ax
  end.

Definition _plot_data_summary_panel (self : OverviewPlotter Kwargs) (ax : AxRef) (kw : Kwargs) : M unit :=
  try_except
    (data_summary ← _get_data_summary self;
     _plot_data_summary_chart ax data_summary)
    (λ e, logger WARNING ("Could not plot data summary: " +:+ str_exn e);;
          placeholder ax "Data summary unavailable");;
  set_title ax "Data Summary".

Definition _plot_forcing_timeseries_overview (self : OverviewPlotter Kwargs) (ax : AxRef) : M unit :=
  try_except
    (let times := VDemo "[datetime(2023, 1, 1) + timedelta(days=i) for i in range(30)]" in
     let wind_speed := VDemo "np.random.normal(8, 3, 30)" in
     ax_call ax OnAxes "plot" [times; wind_speed; VStr "b-"]
       [("label", VStr "Wind Speed"); ("linewidth", VInt 2)];;
     ax_call ax OnAxes "set_ylabel" [VStr "Wind Speed (m/s)"] [];;
     ax_call ax OnAxes "set_xlabel" [VStr "Time"] [];;
     ax_call ax OnAxes "legend" [] [];;
     grid_on ax;;
     ax_call ax OnAxes "tick_params" [] [("axis", VStr "x"); ("rotation", VInt 45)])
    (λ e, logger WARNING ("Could not plot forcing timeseries: " +:+ str_exn e);;
          placeholder ax "Time series data unavailable").

Definition _plot_timeseries_overview_panel (self : OverviewPlotter Kwargs) (ax : AxRef) (kw : Kwargs) : M unit :=
  try_except
    (_plot_forcing_timeseries_overview self ax)
    (λ e, logger WARNING ("Could not plot timeseries overview: " +:+ str_exn e);;
          placeholder ax "Time series unavailable");;
  set_title ax "Forcing Overview".

Definition _get_model_info (self : OverviewPlotter Kwargs) : M (list (string * string)) :=
  try_except
    (ret [("SCHISM Version", "5.11.0"); ("Grid Type", "Unstructured");
          ("Vertical Layers", "10"); ("Physics", "Hydrostatic");
          ("Modules", "WWM, ICE, SED")])
    (λ e, logger WARNING ("Could not get model info: " +:+ str_exn e);;
          ret []).

Definition _plot_model_info_table (ax : AxRef) (info : list (string * string)) : M unit :=
  match info with
  | [] => placeholder ax "No model info available";; axis_off ax
  | _ =>
      let table_data := (λ '(k, v), [k; v]) <$> info in
      ax_call ax OnAxes "table" []
        [("cellText", VList ((λ row, VList (VStr <$> row)) <$> table_data));
         ("colLabels", VList [VStr "Parameter"; VStr "Value"]);
         ("cellLoc", VStr "left"); ("loc", VStr "center");
         ("colWidths", VList [VFloat 0.4; VFloat 0.6])];;
      ax_call ax OnTable "auto_set_font_size" [VBool false] [];;
      ax_call ax OnTable "set_fontsize" [VInt 10] [];;
      ax_call ax OnTable "scale" [VInt 1; VInt 2] [];;
      for_each (seq 0 (length table_data + 1)) 0 (λ _ i,
        for_each (seq 0 2) 0 (λ _ j,
          if decide (i = 0%nat) then
            ax_call ax (OnCell i j) "set_facecolor" [VStr "#40466e"] [];;
            ax_call ax (OnCell i j) "set_text_props" []
              [("weight", VStr "bold"); ("color", VStr "white")]
          else
            ax_call ax (OnCell i j) "set_facecolor"
              [VStr (if decide (i mod 2 = 0)%nat then "#f1f1f2" else "white")] []));;
      axis_off ax
  end.

Definition _plot_model_info_panel (self : OverviewPlotter Kwargs) (ax : AxRef) (kw : Kwargs) : M unit :=
  try_except
    (model_info ← _get_model_info self;
     _plot_model_info_table ax model_info)
    (λ e, logger WARNING ("Could not plot model info: " +:+ str_exn e);;
          placeholder ax "Model info unavailable");;
  set_title ax "Model Configuration".

(** *** Panels of the grid analysis overview *)

Definition _plot_depth_histogram (self : OverviewPlotter Kwargs) (ax : AxRef) (kw : Kwargs) : M unit :=
  try_except
    (match grid self with
     | Some g =>
         depths ← lookup_or_raise (depth g) "'Dataset' object has no attribute 'depth'";
         let depths := Np.drop_nan depths in
         ax_call ax OnAxes "hist" [VList (VFloat <$> depths)]
           [("bins", VInt 50); ("alpha", VFloat 0.7); ("edgecolor", VStr "black")];;
         ax_call ax OnAxes "set_xlabel" [VStr "Depth (m)"] [];;
         ax_call ax OnAxes "set_ylabel" [VStr "Frequency"] [];;
         set_title ax "Depth Distribution";;
         grid_on ax
     | None => placeholder ax "Grid data unavailable"
     end)
    (λ e, logger WARNING ("Could not plot depth histogram: " +:+ str_exn e);;
          placeholder ax "Depth histogram unavailable").

Definition _plot_element_size_histogram (self : OverviewPlotter Kwargs) (ax : AxRef) (kw : Kwargs) : M unit :=
  try_except
    (let element_sizes := VDemo "np.random.lognormal(8, 1, 1000)" in
     ax_call ax OnAxes "hist" [element_sizes]
       [("bins", VInt 50); ("alpha", VFloat 0.7); ("edgecolor", VStr "black")];;
     ax_call ax OnAxes "set_xlabel" [VStr "Element Size (m²)"] [];;
     ax_call ax OnAxes "set_ylabel" [VStr "Frequency"] [];;
     set_title ax "Element Size Distribution";;
     ax_call ax OnAxes "set_xscale" [VStr "log"] [];;
     grid_on ax)
    (λ e, logger WARNING ("Could not plot element size histogram: " +:+ str_exn e);;
          placeholder ax "Element size histogram unavailable").

Definition _calculate_grid_statistics (self : OverviewPlotter Kwargs) : M (list (string * string)) :=
  try_except
    (match grid self with
     | Some g =>
         n_nodes ← lookup_or_raise (node g) "'node'";
         n_elements ← lookup_or_raise (nSCHISM_hgrid_face g) "'nSCHISM_hgrid_face'";
         depths ← lookup_or_raise (depth g) "'Dataset' object has no attribute 'depth'";
         let depths := Np.drop_nan depths in
         lo ← lookup_or_raise (Np.min depths) "zero-size array to reduction operation minimum which has no identity";
         hi ← lookup_or_raise (Np.max depths) "zero-size array to reduction operation maximum which has no identity";
         ret [("Total Nodes", Py.format_thousands n_nodes);
              ("Total Elements", Py.format_thousands n_elements);
              ("Min Depth", Py.format_fixed 2 lo +:+ " m");
              ("Max Depth", Py.format_fixed 2 hi +:+ " m");
              ("Mean Depth", Py.format_fixed 2 (Np.mean depths) +:+ " m");
              ("Depth Std", Py.format_fixed 2 (Np.std depths) +:+ " m")]
     | None => ret []
     end)
    (λ e, logger WARNING ("Could not calculate grid statistics: " +:+ str_exn e);;
          ret []).

(** The rows built by the two nested loops of [_create_statistics_table]:
    [n_rows] rows, each the concatenation over [n_cols] slots of
    [[key, value]] for the slot's item or [['', '']] past the last item. *)
Definition statistics_table_data (items : list (string * string)) : list (list string) :=
  let n_cols := 3%nat in
  let n_rows := ((length items + n_cols - 1) / n_cols)%nat in
  (λ row,
     concat ((λ col,
                let idx := (row * n_cols + col)%nat in
                match items !! idx with
                | Some (key, value) => [key; value]
                | None => [""; ""]
                end) <$> seq 0 n_cols)) <$> seq 0 n_rows.

Definition _create_statistics_table (ax : AxRef) (stats : list (string * string)) (title : string) : M unit :=
  match stats with
  | [] => placeholder ax ("No " +:+ Py.lower_str title +:+ " available");; axis_off ax
  | _ =>
      let items := stats in
      let n_cols := 3%nat in
      let n_rows := ((length items + n_cols - 1) / n_cols)%nat in
      let table_data := statistics_table_data items in
      ax_call ax OnAxes "table" []
        [("cellText", VList ((λ row, VList (VStr <$> row)) <$> table_data));
         ("cellLoc", VStr "left"); ("loc", VStr "center")];;
      ax_call ax OnTable "auto_set_font_size" [VBool false] [];;
      ax_call ax OnTable "set_fontsize" [VInt 9] [];;
      ax_call ax OnTable "scale" [VInt 1; VFloat 1.5] [];;
      for_each (seq 0 n_rows) 0 (λ _ i,
        for_each (seq 0 (n_cols * 2)) 0 (λ _ j,
          if decide (j mod 2 = 0)%nat then
            ax_call ax (OnCell i j) "set_facecolor" [VStr "#f8f9fa"] [];;
            ax_call ax (OnCell i j) "set_text_props" [] [("weight", VStr "bold")]
          else
            ax_call ax (OnCell i j) "set_facecolor" [VStr "white"] []));;
      ax_call ax OnAxes "set_title" [VStr title] [("fontweight", VStr "bold"); ("pad", VInt 20)];;
      axis_off ax
  end.

Definition _plot_grid_statistics_table (self : OverviewPlotter Kwargs) (ax : AxRef) (kw : Kwargs) : M unit :=
  try_except
    (match grid self with
     | Some _ =>
         stats ← _calculate_grid_statistics self;
         _create_statistics_table ax stats "Grid Statistics"
     | None => placeholder ax "Grid statistics unavailable"
     end)
    (λ e, logger WARNING ("Could not plot grid statistics: " +:+ str_exn e);;
          placeholder ax "Grid statistics unavailable").

(** *** Panels of the data analysis overview *)

Definition _plot_atmospheric_overview (self : OverviewPlotter Kwargs) (ax : AxRef) (kw : Kwargs) : M unit :=
  try_except
    (match plot_atmospheric_spatial (data_plotter self) with
     | Some plot => delegate ax (plot false kw)
     | None => placeholder ax "Atmospheric data unavailable"
     end)
    (λ e, logger WARNING ("Could not plot atmospheric overview: " +:+ str_exn e);;
          placeholder ax "Atmospheric data unavailable");;
  set_title ax "Atmospheric Forcing".

Definition _plot_boundary_data_locations (self : OverviewPlotter Kwargs) (ax : AxRef) (kw : Kwargs) : M unit :=
  try_except
    (match grid self with
     | Some _ => delegate ax (plot_grid (grid_plotter self) false false (Some 0.3) kw)
     | None => ret tt
     end;;
     delegate ax (plot_boundaries (grid_plotter self) (Some false) kw))
    (λ e, logger WARNING ("Could not plot boundary data locations: " +:+ str_exn e);;
          placeholder ax "Boundary locations unavailable");;
  set_title ax "Boundary Data Locations".

Definition _plot_data_coverage_timeline (self : OverviewPlotter Kwargs) (ax : AxRef) (kw : Kwargs) : M unit :=
  try_except
    (let data_types := ["Atmospheric"; "Boundary T/S"; "Boundary UV"; "Tidal"] in
     let colors := ["blue"; "green"; "red"; "orange"] in
     for_each (zip data_types colors) 0 (λ i '(data_type, color),
       (* coverage from day [2 i] to day [30 - i] after the start date *)
       let coverage_start := (Z.of_nat i * 2)%Z in
       let coverage_end := (30 - Z.of_nat i)%Z in
       ax_call ax OnAxes "barh" [VInt (Z.of_nat i); VInt (coverage_end - coverage_start)]
         [("left", VInt coverage_start); ("height", VFloat 0.6); ("color", VStr color);
          ("alpha", VFloat 0.7); ("label", VStr data_type)]);;
     ax_call ax OnAxes "set_yticks"
       [VList ((λ i, VInt (Z.of_nat i)) <$> seq 0 (length data_types))] [];;
     ax_call ax OnAxes "set_yticklabels" [VList (VStr <$> data_types)] [];;
     ax_call ax OnAxes "set_xlabel" [VStr "Days from Model Start"] [];;
     ax_call ax OnAxes "set_xlim" [VInt 0; VInt 30] [];;
     grid_on ax)
    (λ e, logger WARNING ("Could not plot data coverage timeline: " +:+ str_exn e);;
          placeholder ax "Data coverage unavailable");;
  set_title ax "Data Coverage Timeline".

Definition _plot_atmospheric_timeseries_overview (self : OverviewPlotter Kwargs) (ax : AxRef) (kw : Kwargs) : M unit :=
  try_except
    (let times := VDemo "[datetime(2023, 1, 1) + timedelta(hours=i*6) for i in range(120)]" in
     let wind_speed := VDemo "np.sqrt(np.random.normal(0, 5, 120)**2 + np.random.normal(0, 4, 120)**2)" in
     let pressure := VDemo "np.random.normal(1013, 10, 120)" in
     ax_call ax OnAxes "twinx" [] [];;
     ax_call ax OnAxes "plot" [times; wind_speed; VStr "b-"]
       [("label", VStr "Wind Speed (m/s)"); ("linewidth", VFloat 1.5)];;
     ax_call ax OnTwin "plot" [times; pressure; VStr "r-"]
       [("label", VStr "Pressure (hPa)"); ("linewidth", VFloat 1.5)];;
     ax_call ax OnAxes "set_xlabel" [VStr "Time"] [];;
     ax_call ax OnAxes "set_ylabel" [VStr "Wind Speed (m/s)"] [("color", VStr "blue")];;
     ax_call ax OnTwin "set_ylabel" [VStr "Pressure (hPa)"] [("color", VStr "red")];;
     ax_call ax OnAxes "legend"
       [VDemo "line1 + line2"; VList [VStr "Wind Speed (m/s)"; VStr "Pressure (hPa)"]]
       [("loc", VStr "upper right")];;
     grid_on ax;;
     ax_call ax OnAxes "tick_params" [] [("axis", VStr "x"); ("rotation", VInt 45)])
    (λ e, logger WARNING ("Could not plot atmospheric timeseries: " +:+ str_exn e);;
          placeholder ax "Atmospheric time series unavailable");;
  set_title ax "Atmospheric Forcing Time Series".

Definition _plot_boundary_timeseries_overview (self : OverviewPlotter Kwargs) (ax : AxRef) (kw : Kwargs) : M unit :=
  try_except
    (let times := VDemo "[datetime(2023, 1, 1) + timedelta(hours=i) for i in range(720)]" in
     let temperature := VDemo "15 + 3 * np.sin(np.linspace(0, 30*2*np.pi, 720)) + np.random.normal(0, 0.5, 720)" in
     let salinity := VDemo "35 + 2 * np.sin(np.linspace(0, 30*2*np.pi/2, 720)) + np.random.normal(0, 0.2, 720)" in
     ax_call ax OnAxes "plot" [times; temperature; VStr "r-"]
       [("label", VStr "Temperature (°C)"); ("linewidth", VFloat 1.5)];;
     ax_call ax OnAxes "twinx" [] [];;
     ax_call ax OnTwin "plot" [times; salinity; VStr "b-"]
       [("label", VStr "Salinity (psu)"); ("linewidth", VFloat 1.5)];;
     ax_call ax OnAxes "set_xlabel" [VStr "Time"] [];;
     ax_call ax OnAxes "set_ylabel" [VStr "Temperature (°C)"] [("color", VStr "red")];;
     ax_call ax OnTwin "set_ylabel" [VStr "Salinity (psu)"] [("color", VStr "blue")];;
     grid_on ax;;
     ax_call ax OnAxes "tick_params" [] [("axis", VStr "x"); ("rotation", VInt 45)];;
     ax_call ax OnAxes "legend" [] [("loc", VStr "upper left")];;
     ax_call ax OnTwin "legend" [] [("loc", VStr "upper right")])
    (λ e, logger WARNING ("Could not plot boundary timeseries: " +:+ str_exn e);;
          placeholder ax "Boundary time series unavailable");;
  set_title ax "Boundary Conditions".

(** ['green' if v >= 0.9 else 'orange' if v >= 0.8 else 'red'] *)
Definition data_quality_bar_color (v : float) : string :=
  if 0.9 <=? v then "green" else if 0.8 <=? v then "orange" else "red".

Definition _plot_data_quality_metrics (self : OverviewPlotter Kwargs) (ax : AxRef) (kw : Kwargs) : M unit :=
  try_except
    (let metrics := [("Completeness", 0.95); ("Consistency", 0.88);
                     ("Temporal Coverage", 0.92); ("Spatial Coverage", 0.85);
                     ("Value Ranges", 0.90)] in
     let categories := metrics.*1 in
     let values := metrics.*2 in
     let colors := data_quality_bar_color <$> values in
     ax_call ax OnAxes "bar" [VList (VStr <$> categories); VList (VFloat <$> values)]
       [("color", VList (VStr <$> colors)); ("alpha", VFloat 0.7); ("edgecolor", VStr "black")];;
     ax_call ax OnAxes "set_ylim" [VInt 0; VInt 1] [];;
     ax_call ax OnAxes "set_ylabel" [VStr "Quality Score"] [];;
     set_title ax "Data Quality Metrics";;
     ax_call ax OnAxes "tick_params" [] [("axis", VStr "x"); ("rotation", VInt 45)];;
     ax_call ax OnAxes "grid" [VBool true] [("alpha", VFloat 0.3); ("axis", VStr "y")];;
     for_each values 0 (λ i value,
       let height := value in
       ax_call ax OnAxes "text"
         [VBarCenter i; VFloat (height + 0.01); VStr (Py.format_fixed 2 value)]
         [("ha", VStr "center"); ("va", VStr "bottom"); ("fontweight", VStr "bold")]))
    (λ e, logger WARNING ("Could not plot data quality metrics: " +:+ str_exn e);;
          placeholder ax "Data quality metrics unavailable");;
  set_title ax "Data Quality".

Definition _plot_data_statistics_table (self : OverviewPlotter Kwargs) (ax : AxRef) (kw : Kwargs) : M unit :=
  try_except
    (let stats := [("Atmospheric Files", "3"); ("Boundary Files", "5");
                   ("Time Coverage", "30 days"); ("Temporal Resolution", "6 hours");
                   ("Tidal Constituents", "8"); ("Grid Points", "2,500")] in
     _create_statistics_table ax stats "Data Statistics")
    (λ e, logger WARNING ("Could not plot data statistics: " +:+ str_exn e);;
          placeholder ax "Data statistics unavailable").

(** *** Saving *)

(** [Path(save_path)] *)
Definition to_Path (save_path : SavePath Path) : Path :=
  match save_path with
  | path_str s => Path_of_str os s
  | path_obj p => p
  end.

Definition _save_plot (self : OverviewPlotter Kwargs) (fig : Figure) (save_path : SavePath Path) : M unit :=
  let save_path := to_Path save_path in
  try_except
    (on_disk (mkdir_parents os (parent os save_path));;
     on_disk (savefig os fig save_path (dpi (plot_config self)));;
     logger INFO ("Overview plot saved to " +:+ str_of_Path os save_path))
    (λ e, logger ERROR ("Could not save plot to " +:+ str_of_Path os save_path +:+ ": " +:+ str_exn e)).

(** *** Composition entry points *)

(** [gs[r0:r1, c0:c1]]; an integer index [i] is the slice [i:i+1] and [:]
    is the whole range. *)
Definition cell (gs : GridSpec) (r c : nat * nat) : SubplotSpec :=
  {| gridspec := gs; rows := r; cols := c |}.

Definition plot_comprehensive_overview (self : OverviewPlotter Kwargs)
    (figsize : float * float)
    (include_validation include_quality_metrics include_data_summary : bool)
    (save_path : option (SavePath Path)) (kw : Kwargs)
    : M (Figure * gmap string AxRef) :=
  plt_figure figsize;;
  let gs := {| nrows := 4; ncols := 4; hspace := 0.3; wspace := 0.3 |} in
  let axes : gmap string AxRef := ∅ in
  ax ← add_subplot (cell gs (0, 2) (0, 2))%nat cartopy;
  let axes := <["grid" := ax]> axes in
  _plot_main_grid_panel self ax kw;;
  ax ← add_subplot (cell gs (0, 2) (2, 3))%nat cartopy;
  let axes := <["boundaries" := ax]> axes in
  _plot_boundary_panel self ax kw;;
  ax ← add_subplot (cell gs (0, 2) (3, 4))%nat cartopy;
  let axes := <["data_locations" := ax]> axes in
  _plot_data_locations_panel self ax kw;;
  axes ← (if include_quality_metrics then
            ax ← add_subplot (cell gs (2, 3) (0, 1))%nat rectilinear;
            let axes := <["quality" := ax]> axes in
            _plot_quality_metrics_panel self ax kw;;
            ret axes
          else ret axes);
  axes ← (if include_validation then
            ax ← add_subplot (cell gs (2, 3) (1, 2))%nat rectilinear;
            let axes := <["validation" := ax]> axes in
            _plot_validation_panel self ax kw;;
            ret axes
          else ret axes);
  axes ← (if include_data_summary then
            ax ← add_subplot (cell gs (2, 3) (2, 3))%nat rectilinear;
            let axes := <["data_summary" := ax]> axes in
            _plot_data_summary_panel self ax kw;;
            ret axes
          else ret axes);
  ax ← add_subplot (cell gs (2, 3) (3, 4))%nat rectilinear;
  let axes := <["timeseries" := ax]> axes in
  _plot_timeseries_overview_panel self ax kw;;
  ax ← add_subplot (cell gs (3, 4) (0, 4))%nat rectilinear;
  let axes := <["info" := ax]> axes in
  _plot_model_info_panel self ax kw;;
  fig_call "suptitle" [VStr "SCHISM Model Overview"]
    [("fontsize", VInt 16); ("fontweight", VStr "bold"); ("y", VFloat 0.98)];;
  match save_path with
  | Some p => if truthy save_path then fig ← current_figure; _save_plot self fig p else ret tt
  | None => ret tt
  end;;
  fig ← current_figure;
  ret (fig, axes).

Definition plot_grid_analysis_overview (self : OverviewPlotter Kwargs)
    (figsize : float * float) (save_path : option (SavePath Path)) (kw : Kwargs)
    : M (Figure * gmap string AxRef) :=
  plt_figure figsize;;
  let gs := {| nrows := 3; ncols := 3; hspace := 0.3; wspace := 0.3 |} in
  let axes : gmap string AxRef := ∅ in
  ax ← add_subplot (cell gs (0, 1) (0, 2))%nat cartopy;
  let axes := <["grid" := ax]> axes in
  delegate ax (plot_bathymetry (grid_plotter self) kw);;
  set_title ax "Grid and Bathymetry";;
  ax ← add_subplot (cell gs (0, 1) (2, 3))%nat cartopy;
  let axes := <["quality" := ax]> axes in
  delegate ax (plot_grid_quality (grid_plotter self) kw);;
  set_title ax "Element Quality";;
  ax ← add_subplot (cell gs (1, 2) (0, 1))%nat cartopy;
  let axes := <["boundaries" := ax]> axes in
  delegate ax (plot_boundaries (grid_plotter self) None kw);;
  set_title ax "Boundaries";;
  ax ← add_subplot (cell gs (1, 2) (1, 2))%nat rectilinear;
  let axes := <["depth_hist" := ax]> axes in
  _plot_depth_histogram self ax kw;;
  ax ← add_subplot (cell gs (1, 2) (2, 3))%nat rectilinear;
  let axes := <["size_hist" := ax]> axes in
  _plot_element_size_histogram self ax kw;;
  ax ← add_subplot (cell gs (2, 3) (0, 3))%nat rectilinear;
  let axes := <["stats" := ax]> axes in
  _plot_grid_statistics_table self ax kw;;
  fig_call "suptitle" [VStr "SCHISM Grid Analysis Overview"]
    [("fontsize", VInt 16); ("fontweight", VStr "bold")];;
  match save_path with
  | Some p => if truthy save_path then fig ← current_figure; _save_plot self fig p else ret tt
  | None => ret tt
  end;;
  fig ← current_figure;
  ret (fig, axes).

Definition plot_data_analysis_overview (self : OverviewPlotter Kwargs)
    (figsize : float * float) (save_path : option (SavePath Path)) (kw : Kwargs)
    : M (Figure * gmap string AxRef) :=
  plt_figure figsize;;
  let gs := {| nrows := 3; ncols := 3; hspace := 0.3; wspace := 0.3 |} in
  let axes : gmap string AxRef := ∅ in
  ax ← add_subplot (cell gs (0, 1) (0, 1))%nat cartopy;
  let axes := <["atmospheric" := ax]> axes in
  _plot_atmospheric_overview self ax kw;;
  ax ← add_subplot (cell gs (0, 1) (1, 2))%nat cartopy;
  let axes := <["boundary_locations" := ax]> axes in
  _plot_boundary_data_locations self ax kw;;
  ax ← add_subplot (cell gs (0, 1) (2, 3))%nat rectilinear;
  let axes := <["coverage" := ax]> axes in
  _plot_data_coverage_timeline self ax kw;;
  ax ← add_subplot (cell gs (1, 2) (0, 3))%nat rectilinear;
  let axes := <["atm_timeseries" := ax]> axes in
  _plot_atmospheric_timeseries_overview self ax kw;;
  ax ← add_subplot (cell gs (2, 3) (0, 1))%nat rectilinear;
  let axes := <["boundary_ts" := ax]> axes in
  _plot_boundary_timeseries_overview self ax kw;;
  ax ← add_subplot (cell gs (2, 3) (1, 2))%nat rectilinear;
  let axes := <["data_quality" := ax]> axes in
  _plot_data_quality_metrics self ax kw;;
  ax ← add_subplot (cell gs (2, 3) (2, 3))%nat rectilinear;
  let axes := <["data_stats" := ax]> axes in
  _plot_data_statistics_table self ax kw;;
  fig_call "suptitle" [VStr "SCHISM Data Analysis Overview"]
    [("fontsize", VInt 16); ("fontweight", VStr "bold")];;
  match save_path with
  | Some p => if truthy save_path then fig ← current_figure; _save_plot self fig p else ret tt
  | None => ret tt
  end;;
  fig ← current_figure;
  ret (fig, axes).

(** [plot]: the comprehensive overview with its defaults. *)
Definition plot (self : OverviewPlotter Kwargs) (kw : Kwargs) : M (Figure * gmap string AxRef) :=
  plot_comprehensive_overview self (20, 16) true true true None kw.

(** ** Specifications of computations *)

(** [m] returns from every state, with a value that satisfies [P]. *)
Definition returns {A} (m : M A) (P : A → Prop) : Prop :=
  ∀ s, ∃ a s', m s = (Ok a, s') ∧ P a.

(** [m] never raises. *)
Definition safe {A} (m : M A) : Prop := returns m (λ _, True).


(** [m] leaves the disk as it found it. *)
Definition keeps_disk {A} (m : M A) : Prop :=
  ∀ s, disk (m s).2 = disk s.

(** The calls recorded on the region [ax]. *)
Definition calls_on (ax : AxRef) (s : State FS) : option (list Call) :=
  calls <$> fig_axes (figure s) !! ax.

(** On a figure that has the region [ax], [m] returns and records exactly
    the calls [cs] on it, after those already there. *)
Definition draws (ax : AxRef) (m : M unit) (cs : list Call) : Prop :=
  ∀ s before, calls_on ax s = Some before →
    ∃ s', m s = (Ok tt, s') ∧ calls_on ax s' = Some (before ++ cs).




Definition data_analysis_regions : gset string :=
  {["atmospheric"; "boundary_locations"; "coverage"; "atm_timeseries";
    "boundary_ts"; "data_quality"; "data_stats"]}.


(** What the [if save_path: self._save_plot(fig, save_path)] step makes of
    the outcome of a composition that did not save. *)
Definition then_saved (self : OverviewPlotter Kwargs) (save_path : option (SavePath Path))
    (composed : Result (Figure * gmap string AxRef) * State FS)
    : Result (Figure * gmap string AxRef) * State FS :=
  match composed, save_path with
  | (Ok (fig, axes), s), Some p =>
      if truthy save_path then (Ok (fig, axes), (_save_plot self fig p s).2)
      else (Ok (fig, axes), s)
  | _, _ => composed
  end.

(** [m] leaves every state in relation [R] with the state it started from,
    whether it returns or raises. *)
Definition preserves (R : State FS → State FS → Prop) {A} (m : M A) : Prop :=
  ∀ s, R s (m s).2.

(** The figure has as many regions after as before. *)
Definition same_regions (s s' : State FS) : Prop :=
  length (fig_axes (figure s')) = length (fig_axes (figure s)).




(** On a figure that has the region [ax], [m] returns and the last call
    recorded on the region is [c]. *)
Definition ends_with (ax : AxRef) (m : M unit) (c : Call) : Prop :=
  ∀ s, (ax < length (fig_axes (figure s)))%nat →
    ∃ s' before, m s = (Ok tt, s') ∧ calls_on ax s' = Some (before ++ [c]).


(** The keys and values of a mapping, in order, as the cells of a table
    read row by row. *)
Definition flat_pairs (items : list (string * string)) : list string :=
  items ≫= λ '(key, value), [key; value].

(** The grid handle has both coordinates and a depth array with at least
    one entry that is a number. *)
Definition has_statistics (g : Grid) : Prop :=
  is_Some (node g) ∧ is_Some (nSCHISM_hgrid_face g) ∧
  ∃ depths, depth g = Some depths ∧ Np.drop_nan depths ≠ [].

(** Size and figure-level calls of the figure are after as before. *)
Definition same_head (s s' : State FS) : Prop :=
  figsize (figure s') = figsize (figure s) ∧ fig_calls (figure s') = fig_calls (figure s).

(** From a state that satisfies [P], whenever [m] returns, its value and
    the state it leaves satisfy [Q]. *)
Definition hoare {A} (P : State FS → Prop) (m : M A) (Q : A → State FS → Prop) : Prop :=
  ∀ s a s', P s → m s = (Ok a, s') → Q a s'.

(** The figure has the size [size] and the figure-level calls [cs]. *)
Definition headed (size : float * float) (cs : list Call) (s : State FS) : Prop :=
  figsize (figure s) = size ∧ fig_calls (figure s) = cs.

(** ** Control: returning and raising *)

Lemma bind_ok {A B} (m : M A) (k : A → M B) s a s' :
  m s = (Ok a, s') → bind m k s = k a s'.
Proof. unfold bind. by intros ->. Qed.

Lemma bind_raise {A B} (m : M A) (k : A → M B) s e s' :
  m s = (Raise e, s') → bind m k s = (Raise e, s').
Proof. unfold bind. by intros ->. Qed.

Lemma returns_ret {A} (a : A) (P : A → Prop) : P a → returns (ret a) P.
Proof. intros HP s. by exists a, s. Qed.

Lemma returns_bind {A B} (m : M A) (k : A → M B) (Q : A → Prop) (P : B → Prop) :
  returns m Q → (∀ a, Q a → returns (k a) P) → returns (bind m k) P.
Proof.
  intros Hm Hk s.
  destruct (Hm s) as (a & s1 & Hrun & Ha).
  destruct (Hk a Ha s1) as (b & s2 & Hrun' & Hb).
  exists b, s2. split; [|done].
  by rewrite (bind_ok _ _ _ _ _ Hrun).
Qed.

Lemma safe_then {A B} (m : M A) (k : A → M B) (P : B → Prop) :
  safe m → (∀ a, returns (k a) P) → returns (bind m k) P.
Proof. intros Hm Hk. apply returns_bind with (Q := λ _, True); auto. Qed.

Lemma safe_ret {A} (a : A) : safe (ret a).
Proof. by apply returns_ret. Qed.

Lemma safe_bind {A B} (m : M A) (k : A → M B) :
  safe m → (∀ a, safe (k a)) → safe (bind m k).
Proof. intros. by apply safe_then. Qed.

(** A handler that never raises makes the whole [try] statement safe,
    whatever its body does. *)
Lemma safe_try_except {A} (body : M A) (handler : Exn → M A) :
  (∀ e, safe (handler e)) → safe (try_except body handler).
Proof.
  intros Hh s. unfold try_except.
  destruct (body s) as [[a|e] s1].
  - by exists a, s1.
  - apply Hh.
Qed.

Lemma safe_modify f : safe (modify f).
Proof. intros s. by exists tt, (f s). Qed.

Lemma safe_add_subplot spec proj : safe (add_subplot spec proj).
Proof. intros s. by eexists _, _. Qed.

Lemma safe_current_figure : safe current_figure.
Proof. intros s. by eexists _, _. Qed.

Lemma safe_for_each {A} (l : list A) (body : nat → A → M unit) i :
  (∀ i x, safe (body i x)) → safe (for_each l i body).
Proof.
  intros Hbody. revert i.
  induction l as [|x l IH]; intros i; simpl.
  - apply safe_ret.
  - apply safe_bind; auto.
Qed.

(** A collaborator that does not raise makes its call safe. *)
Lemma safe_delegate ax (d : External Axes) :
  (∀ a, (d a).2 = None) → safe (delegate ax d).
Proof.
  intros Hd s. unfold delegate.
  destruct (fig_axes (figure s) !! ax) as [a|]; [|by eexists _, _].
  specialize (Hd a). destruct (d a) as [a' r]. simpl in Hd. subst r.
  by eexists _, _.
Qed.

Ltac safe_step :=
  first
    [ apply safe_ret
    | apply safe_modify
    | apply safe_add_subplot
    | apply safe_current_figure
    | apply safe_for_each; intros
    | apply safe_try_except; intros
    | apply safe_bind; [|intros]
    | match goal with
      | |- safe (match ?x with _ => _ end) => destruct x
      end ].

Ltac prove_safe :=
  unfold placeholder, set_title, grid_on, axis_off, ax_call, logger, fig_call, plt_figure;
  repeat safe_step.

(** *** Every panel routine returns *)

Lemma _get_grid_info_safe self : safe (_get_grid_info self).
Proof. unfold _get_grid_info. prove_safe. Qed.

Lemma _plot_main_grid_panel_safe self ax kw : safe (_plot_main_grid_panel self ax kw).
Proof. unfold _plot_main_grid_panel. prove_safe. Qed.

Lemma _plot_boundary_panel_safe self ax kw : safe (_plot_boundary_panel self ax kw).
Proof. unfold _plot_boundary_panel. prove_safe. Qed.

Lemma _plot_data_locations_panel_safe self ax kw : safe (_plot_data_locations_panel self ax kw).
Proof. unfold _plot_data_locations_panel. prove_safe. Qed.

Lemma _plot_quality_metrics_panel_safe self ax kw : safe (_plot_quality_metrics_panel self ax kw).
Proof. unfold _plot_quality_metrics_panel. prove_safe. Qed.

Lemma _plot_validation_panel_safe self ax kw : safe (_plot_validation_panel self ax kw).
Proof. unfold _plot_validation_panel. prove_safe. Qed.

Lemma _plot_data_summary_panel_safe self ax kw : safe (_plot_data_summary_panel self ax kw).
Proof. unfold _plot_data_summary_panel. prove_safe. Qed.

Lemma _plot_timeseries_overview_panel_safe self ax kw :
  safe (_plot_timeseries_overview_panel self ax kw).
Proof. unfold _plot_timeseries_overview_panel. prove_safe. Qed.

Lemma _plot_model_info_panel_safe self ax kw : safe (_plot_model_info_panel self ax kw).
Proof. unfold _plot_model_info_panel. prove_safe. Qed.

Lemma _plot_depth_histogram_safe self ax kw : safe (_plot_depth_histogram self ax kw).
Proof. unfold _plot_depth_histogram. prove_safe. Qed.

Lemma _plot_element_size_histogram_safe self ax kw :
  safe (_plot_element_size_histogram self ax kw).
Proof. unfold _plot_element_size_histogram. prove_safe. Qed.

Lemma _plot_grid_statistics_table_safe self ax kw :
  safe (_plot_grid_statistics_table self ax kw).
Proof. unfold _plot_grid_statistics_table. prove_safe. Qed.

Lemma _plot_atmospheric_overview_safe self ax kw : safe (_plot_atmospheric_overview self ax kw).
Proof. unfold _plot_atmospheric_overview. prove_safe. Qed.

Lemma _plot_boundary_data_locations_safe self ax kw :
  safe (_plot_boundary_data_locations self ax kw).
Proof. unfold _plot_boundary_data_locations. prove_safe. Qed.

Lemma _plot_data_coverage_timeline_safe self ax kw :
  safe (_plot_data_coverage_timeline self ax kw).
Proof. unfold _plot_data_coverage_timeline. prove_safe. Qed.

Lemma _plot_atmospheric_timeseries_overview_safe self ax kw :
  safe (_plot_atmospheric_timeseries_overview self ax kw).
Proof. unfold _plot_atmospheric_timeseries_overview. prove_safe. Qed.

Lemma _plot_boundary_timeseries_overview_safe self ax kw :
  safe (_plot_boundary_timeseries_overview self ax kw).
Proof. unfold _plot_boundary_timeseries_overview. prove_safe. Qed.

Lemma _plot_data_quality_metrics_safe self ax kw : safe (_plot_data_quality_metrics self ax kw).
Proof. unfold _plot_data_quality_metrics. prove_safe. Qed.

Lemma _plot_data_statistics_table_safe self ax kw :
  safe (_plot_data_statistics_table self ax kw).
Proof. unfold _plot_data_statistics_table. prove_safe. Qed.

Lemma _save_plot_safe self fig save_path : safe (_save_plot self fig save_path).
Proof. unfold _save_plot. prove_safe. Qed.

Create HintDb safe.

#[local] Hint Resolve
  _plot_main_grid_panel_safe _plot_boundary_panel_safe _plot_data_locations_panel_safe
  _plot_quality_metrics_panel_safe _plot_validation_panel_safe _plot_data_summary_panel_safe
  _plot_timeseries_overview_panel_safe _plot_model_info_panel_safe
  _plot_depth_histogram_safe _plot_element_size_histogram_safe
  _plot_grid_statistics_table_safe _plot_atmospheric_overview_safe
  _plot_boundary_data_locations_safe _plot_data_coverage_timeline_safe
  _plot_atmospheric_timeseries_overview_safe _plot_boundary_timeseries_overview_safe
  _plot_data_quality_metrics_safe _plot_data_statistics_table_safe
  _save_plot_safe safe_delegate : safe.

(** ** The regions of the returned mapping *)

Lemma bind_assoc {A B C} (m : M A) (f : A → M B) (k : B → M C) s :
  bind (bind m f) k s = bind m (λ a, bind (f a) k) s.
Proof. unfold bind. by destruct (m s) as [[a|e] s1]. Qed.

Lemma returns_assoc {A B C} (m : M A) (f : A → M B) (k : B → M C) P :
  returns (bind m (λ a, bind (f a) k)) P → returns (bind (bind m f) k) P.
Proof. intros H s. rewrite bind_assoc. apply H. Qed.

Lemma returns_ret_bind {A B} (a : A) (k : A → M B) P :
  returns (k a) P → returns (bind (ret a) k) P.
Proof. intros H s. apply H. Qed.



Ltac safe_side := first [ solve [ auto with safe ] | solve [ prove_safe; auto with safe ] ].

Ltac returns_step :=
  lazymatch goal with
  | |- returns (bind (bind _ _) _) _ => apply returns_assoc
  | |- returns (bind (ret _) _) _ => apply returns_ret_bind
  | |- returns (bind _ _) _ => apply safe_then; [ safe_side | intros ]
  end.


Lemma data_analysis_overview_regions self figsize save_path kw :
  returns (plot_data_analysis_overview self figsize save_path kw)
          (λ r, dom r.2 = data_analysis_regions).
Proof.
  unfold plot_data_analysis_overview, data_analysis_regions.
  repeat returns_step.
  apply returns_ret; simpl. rewrite !dom_insert_L, dom_empty_L. set_solver.
Qed.



(** ** The disk during composition *)

Lemma keeps_disk_ret {A} (a : A) : keeps_disk (ret a).
Proof. done. Qed.

Lemma keeps_disk_raise {A} e : keeps_disk (raise e : M A).
Proof. done. Qed.

Lemma keeps_disk_bind {A B} (m : M A) (k : A → M B) :
  keeps_disk m → (∀ a, keeps_disk (k a)) → keeps_disk (bind m k).
Proof.
  intros Hm Hk s. specialize (Hm s). unfold bind.
  destruct (m s) as [[a|e] s1]; simpl in *; [|done].
  by rewrite Hk.
Qed.

Lemma keeps_disk_try_except {A} (body : M A) (handler : Exn → M A) :
  keeps_disk body → (∀ e, keeps_disk (handler e)) → keeps_disk (try_except body handler).
Proof.
  intros Hb Hh s. specialize (Hb s). unfold try_except.
  destruct (body s) as [[a|e] s1]; simpl in *; [done|].
  by rewrite Hh.
Qed.

Lemma keeps_disk_modify f : (∀ s, disk (f s) = disk s) → keeps_disk (modify f).
Proof. intros Hf s. apply Hf. Qed.

Lemma keeps_disk_add_subplot spec proj : keeps_disk (add_subplot spec proj).
Proof. done. Qed.

Lemma keeps_disk_current_figure : keeps_disk current_figure.
Proof. done. Qed.

Lemma keeps_disk_delegate ax d : keeps_disk (delegate ax d).
Proof.
  intros s. unfold delegate.
  destruct (fig_axes (figure s) !! ax) as [a|]; [|done].
  by destruct (d a).
Qed.

Lemma keeps_disk_lookup_or_raise {A} (o : option A) what : keeps_disk (lookup_or_raise o what).
Proof. by destruct o. Qed.

Lemma keeps_disk_for_each {A} (l : list A) (body : nat → A → M unit) i :
  (∀ i x, keeps_disk (body i x)) → keeps_disk (for_each l i body).
Proof.
  intros Hbody. revert i.
  induction l as [|x l IH]; intros i; simpl.
  - apply keeps_disk_ret.
  - apply keeps_disk_bind; auto.
Qed.

Ltac keeps_disk_step :=
  first
    [ apply keeps_disk_ret
    | apply keeps_disk_raise
    | apply keeps_disk_modify; reflexivity
    | apply keeps_disk_add_subplot
    | apply keeps_disk_current_figure
    | apply keeps_disk_delegate
    | apply keeps_disk_lookup_or_raise
    | apply keeps_disk_for_each; intros
    | apply keeps_disk_try_except; [|intros]
    | apply keeps_disk_bind; [|intros]
    | match goal with
      | |- keeps_disk (match ?x with _ => _ end) => destruct x
      end ].

Ltac prove_keeps_disk :=
  unfold placeholder, set_title, grid_on, axis_off, ax_call, logger, fig_call, plt_figure;
  repeat keeps_disk_step.

Lemma rendering_keeps_disk self ax kw :
  keeps_disk (_plot_main_grid_panel self ax kw) ∧
  keeps_disk (_plot_boundary_panel self ax kw) ∧
  keeps_disk (_plot_data_locations_panel self ax kw) ∧
  keeps_disk (_plot_quality_metrics_panel self ax kw) ∧
  keeps_disk (_plot_validation_panel self ax kw) ∧
  keeps_disk (_plot_data_summary_panel self ax kw) ∧
  keeps_disk (_plot_timeseries_overview_panel self ax kw) ∧
  keeps_disk (_plot_model_info_panel self ax kw) ∧
  keeps_disk (_plot_depth_histogram self ax kw) ∧
  keeps_disk (_plot_element_size_histogram self ax kw) ∧
  keeps_disk (_plot_grid_statistics_table self ax kw) ∧
  keeps_disk (_plot_atmospheric_overview self ax kw) ∧
  keeps_disk (_plot_boundary_data_locations self ax kw) ∧
  keeps_disk (_plot_data_coverage_timeline self ax kw) ∧
  keeps_disk (_plot_atmospheric_timeseries_overview self ax kw) ∧
  keeps_disk (_plot_boundary_timeseries_overview self ax kw) ∧
  keeps_disk (_plot_data_quality_metrics self ax kw) ∧
  keeps_disk (_plot_data_statistics_table self ax kw).
Proof.
  split_and!.
  all: unfold _plot_main_grid_panel, _plot_boundary_panel, _plot_data_locations_panel,
    _plot_quality_metrics_panel, _plot_validation_panel, _plot_data_summary_panel,
    _plot_timeseries_overview_panel, _plot_model_info_panel, _plot_depth_histogram,
    _plot_element_size_histogram, _plot_grid_statistics_table, _plot_atmospheric_overview,
    _plot_boundary_data_locations, _plot_data_coverage_timeline,
    _plot_atmospheric_timeseries_overview, _plot_boundary_timeseries_overview,
    _plot_data_quality_metrics, _plot_data_statistics_table,
    _get_grid_info, _add_data_source_markers, _calculate_quality_metrics,
    _plot_quality_metrics_chart, _run_validation_checks, _plot_validation_results,
    _get_data_summary, _plot_data_summary_chart, _plot_forcing_timeseries_overview,
    _get_model_info, _plot_model_info_table, _calculate_grid_statistics,
    _create_statistics_table.
  all: prove_keeps_disk.
Qed.

Ltac composition_keeps_disk_step :=
  lazymatch goal with
  | |- keeps_disk (bind _ _) => apply keeps_disk_bind; [|intros]
  | |- keeps_disk (ret _) => apply keeps_disk_ret
  | |- keeps_disk (modify _) => apply keeps_disk_modify; reflexivity
  | |- keeps_disk (add_subplot _ _) => apply keeps_disk_add_subplot
  | |- keeps_disk current_figure => apply keeps_disk_current_figure
  | |- keeps_disk (delegate _ _) => apply keeps_disk_delegate
  | |- keeps_disk (if ?b then _ else _) => destruct b
  | |- keeps_disk (_ ?self ?ax ?kw) => apply (rendering_keeps_disk self ax kw)
  end.

(** Composition without a save path never touches the disk. *)
Lemma composition_keeps_disk self figsize v q d kw :
  keeps_disk (plot_comprehensive_overview self figsize v q d None kw) ∧
  keeps_disk (plot_grid_analysis_overview self figsize None kw) ∧
  keeps_disk (plot_data_analysis_overview self figsize None kw).
Proof.
  unfold plot_comprehensive_overview, plot_grid_analysis_overview, plot_data_analysis_overview,
    set_title, ax_call, fig_call, plt_figure.
  split_and!.
  all: repeat composition_keeps_disk_step.
Qed.

(** ** Saving *)

(** What [_save_plot] does, case by case: the parent directory is made on
    the disk as found, the figure is written on the disk so obtained, and a
    failure of either step ends in an error record instead of an exception. *)
Lemma _save_plot_cases self fig save_path s :
  let p := to_Path save_path in
  let '(d1, made) := mkdir_parents os (parent os p) (disk s) in
  let '(d2, written) := savefig os fig p (dpi (plot_config self)) d1 in
  _save_plot self fig save_path s =
    match made, written with
    | Some e, _ =>
        (Ok tt, mkState (figure s)
                  (records s ++ [{| levelname := ERROR;
                                    msg := "Could not save plot to " +:+ str_of_Path os p +:+
                                           ": " +:+ str_exn e |}]) d1)
    | None, Some e =>
        (Ok tt, mkState (figure s)
                  (records s ++ [{| levelname := ERROR;
                                    msg := "Could not save plot to " +:+ str_of_Path os p +:+
                                           ": " +:+ str_exn e |}]) d2)
    | None, None =>
        (Ok tt, mkState (figure s)
                  (records s ++ [{| levelname := INFO;
                                    msg := "Overview plot saved to " +:+ str_of_Path os p |}]) d2)
    end.
Proof.
  unfold _save_plot, try_except, bind, on_disk, logger, modify. simpl.
  destruct (mkdir_parents os _ (disk s)) as [d1 [e|]]; simpl.
  - by destruct (savefig os fig _ _ d1).
  - by destruct (savefig os fig _ _ d1) as [d2 [e|]].
Qed.

Lemma _save_plot_returns self fig save_path s :
  (_save_plot self fig save_path s).1 = Ok tt ∧
  figure (_save_plot self fig save_path s).2 = figure s.
Proof.
  pose proof (_save_plot_cases self fig save_path s) as H. simpl in H.
  destruct (mkdir_parents os _ (disk s)) as [d1 [e|]];
    destruct (savefig os fig _ _ d1) as [d2 [e'|]]; by rewrite H.
Qed.

(** Two computations that differ only in what follows a common prefix. *)
Lemma bind_rel {A B} (R : Result B * State FS → Result B * State FS → Prop)
    (m : M A) (k1 k2 : A → M B) s :
  (∀ e s', R (Raise e, s') (Raise e, s')) →
  (∀ a s', R (k1 a s') (k2 a s')) →
  R (bind m k1 s) (bind m k2 s).
Proof. intros Hraise Hk. unfold bind. destruct (m s) as [[a|e] s1]; auto. Qed.

Lemma save_step self save_path (axes : gmap string AxRef) s :
  bind (match save_path with
        | Some p =>
            if truthy save_path then bind current_figure (λ fig, _save_plot self fig p)
            else ret tt
        | None => ret tt
        end)
       (λ _, bind current_figure (λ fig, ret (fig, axes))) s
  = then_saved self save_path (Ok (figure s, axes), s).
Proof.
  destruct save_path as [p|]; [|done].
  unfold then_saved. destruct (truthy (Some p)); [|done].
  unfold bind, current_figure, ret.
  destruct (_save_plot_returns self (figure s) p s) as [Hok Hfig].
  destruct (_save_plot self (figure s) p s) as [r s1]. simpl in *. subst r.
  by rewrite Hfig.
Qed.

Ltac common_prefix self save_path :=
  repeat (cbv beta zeta;
          apply (bind_rel (λ x y, x = then_saved self save_path y)); [done | intros]);
  cbv beta zeta.

(** Each entry point is its composition without saving, followed by the
    save step. *)
Lemma comprehensive_overview_then_saved self figsize v q d save_path kw s :
  plot_comprehensive_overview self figsize v q d save_path kw s =
  then_saved self save_path (plot_comprehensive_overview self figsize v q d None kw s).
Proof.
  unfold plot_comprehensive_overview.
  common_prefix self save_path. by rewrite save_step.
Qed.

Lemma grid_analysis_overview_then_saved self figsize save_path kw s :
  plot_grid_analysis_overview self figsize save_path kw s =
  then_saved self save_path (plot_grid_analysis_overview self figsize None kw s).
Proof.
  unfold plot_grid_analysis_overview.
  common_prefix self save_path. by rewrite save_step.
Qed.

Lemma data_analysis_overview_then_saved self figsize save_path kw s :
  plot_data_analysis_overview self figsize save_path kw s =
  then_saved self save_path (plot_data_analysis_overview self figsize None kw s).
Proof.
  unfold plot_data_analysis_overview.
  common_prefix self save_path. by rewrite save_step.
Qed.

(** The save step changes neither the figure nor the mapping, and turns no
    return into an exception. *)
Lemma then_saved_result self save_path composed :
  (then_saved self save_path composed).1 = composed.1.
Proof.
  destruct composed as [[[fig axes]|e] s]; [|done].
  destruct save_path as [p|]; [|done].
  unfold then_saved. by destruct (truthy (Some p)).
Qed.

Lemma then_saved_falsy self save_path composed :
  truthy save_path = false → then_saved self save_path composed = composed.
Proof.
  intros Hfalsy.
  destruct composed as [[[fig axes]|e] s]; [|done].
  destruct save_path as [p|]; [|done].
  unfold then_saved. by rewrite Hfalsy.
Qed.

(** ** What a routine records on its region *)

Lemma calls_on_record ax c s before :
  calls_on ax s = Some before →
  calls_on ax (with_axes (alter (record_call c) ax) s) = Some (before ++ [c]).
Proof.
  unfold calls_on, with_axes, with_figure, AxRef in *. simpl.
  rewrite list_lookup_alter_eq.
  destruct (fig_axes (figure s) !! ax) as [a|]; simpl; [|done].
  by intros [= <-].
Qed.

Lemma draws_ret ax : draws ax (ret tt) [].
Proof. intros s before H. exists s. by rewrite app_nil_r. Qed.

Lemma draws_ax_call ax t meth a kw :
  draws ax (ax_call ax t meth a kw) [mkCall t meth a kw].
Proof.
  intros s before H. eexists. split; [done|].
  by apply calls_on_record.
Qed.

Lemma draws_bind ax (m1 m2 : M unit) cs1 cs2 :
  draws ax m1 cs1 → draws ax m2 cs2 → draws ax (bind m1 (λ _, m2)) (cs1 ++ cs2).
Proof.
  intros H1 H2 s before Hs.
  destruct (H1 s before Hs) as (s1 & Hrun1 & Hs1).
  destruct (H2 s1 _ Hs1) as (s2 & Hrun2 & Hs2).
  exists s2. rewrite (bind_ok _ _ _ _ _ Hrun1). by rewrite app_assoc.
Qed.

Lemma draws_call_then ax t meth a kw (m : M unit) cs :
  draws ax m cs →
  draws ax (bind (ax_call ax t meth a kw) (λ _, m)) (mkCall t meth a kw :: cs).
Proof. intros H. apply (draws_bind ax _ _ [_] cs); [apply draws_ax_call | done]. Qed.

Lemma draws_ret_bind {A} ax (a : A) (k : A → M unit) cs :
  draws ax (k a) cs → draws ax (bind (ret a) k) cs.
Proof. done. Qed.

Lemma draws_try_except ax (body : M unit) handler cs :
  draws ax body cs → draws ax (try_except body handler) cs.
Proof.
  intros H s before Hs. destruct (H s before Hs) as (s' & Hrun & Hs').
  exists s'. unfold try_except. by rewrite Hrun.
Qed.

Lemma draws_for_each {A} ax (l : list A) (body : nat → A → M unit) (f : nat → A → list Call) i :
  (∀ i x, draws ax (body i x) (f i x)) →
  draws ax (for_each l i body) (concat (imap (λ j, f (i + j)%nat) l)).
Proof.
  intros Hbody. revert i.
  induction l as [|x l IH]; intros i; simpl.
  - apply draws_ret.
  - rewrite Nat.add_0_r. apply draws_bind; [apply Hbody|].
    specialize (IH (S i)).
    erewrite imap_ext; [exact IH|].
    intros j y _. simpl. f_equal. lia.
Qed.

Lemma draws_if ax (b : bool) (m1 m2 : M unit) cs1 cs2 :
  draws ax m1 cs1 → draws ax m2 cs2 →
  draws ax (if b then m1 else m2) (if b then cs1 else cs2).
Proof. by destruct b. Qed.

Lemma draws_if_decide ax (P : Prop) (d : Decision P) (m1 m2 : M unit) cs1 cs2 :
  draws ax m1 cs1 → draws ax m2 cs2 →
  draws ax (if d then m1 else m2) (if d then cs1 else cs2).
Proof. by destruct d. Qed.

Ltac draws_step :=
  lazymatch goal with
  | |- draws _ (bind (ax_call _ _ _ _ _) _) _ => apply draws_call_then
  | |- draws _ (bind (ret _) _) _ => apply draws_ret_bind
  | |- draws _ (bind _ _) _ => eapply draws_bind
  | |- draws _ (ax_call _ _ _ _ _) _ => apply draws_ax_call
  | |- draws _ (for_each _ _ _) _ => eapply draws_for_each; intros
  | |- draws _ (try_except _ _) _ => apply draws_try_except
  | |- draws _ (if _ then _ else _) _ => first [ eapply draws_if | eapply draws_if_decide ]
  | |- draws _ (ret tt) _ => apply draws_ret
  end.

Ltac prove_draws :=
  unfold placeholder, set_title, grid_on, axis_off;
  repeat (cbv zeta; draws_step).

Lemma draws_eq ax (m : M unit) cs cs' : draws ax m cs → cs = cs' → draws ax m cs'.
Proof. by intros H <-. Qed.

(** ** The order of floats *)

Lemma SFcompare_antisym x y : SFcompare y x = CompOpp <$> SFcompare x y.
Proof.
  destruct x as [[]| [] | | [] m1 e1], y as [[]| [] | | [] m2 e2]; simpl; try reflexivity.
  all: rewrite (Z.compare_antisym e1 e2); destruct (e1 ?= e2)%Z; simpl; try reflexivity.
  all: change (Pos.compare_cont Eq m2 m1) with (m2 ?= m1)%positive;
       change (Pos.compare_cont Eq m1 m2) with (m1 ?= m2)%positive;
       rewrite (Pos.compare_antisym m1 m2); by destruct (m1 ?= m2)%positive.
Qed.

Lemma SFcompare_defined x y :
  x ≠ S754_nan → y ≠ S754_nan → is_Some (SFcompare x y).
Proof. destruct x, y; simpl; intros; try done; eauto. Qed.

Lemma SFcompare_not_nan x y c : SFcompare x y = Some c → x ≠ S754_nan ∧ y ≠ S754_nan.
Proof. by destruct x, y. Qed.

Lemma ltb_not_leb x y : (x <? y) = true → (y <=? x) = false.
Proof.
  rewrite ltb_spec, leb_spec. unfold SFltb, SFleb.
  rewrite (SFcompare_antisym (Prim2SF x) (Prim2SF y)).
  by destruct (SFcompare (Prim2SF x) (Prim2SF y)) as [[]|].
Qed.

Lemma leb_not_ltb x y : (x <=? y) = true → (y <? x) = false.
Proof.
  rewrite ltb_spec, leb_spec. unfold SFltb, SFleb.
  rewrite (SFcompare_antisym (Prim2SF x) (Prim2SF y)).
  by destruct (SFcompare (Prim2SF x) (Prim2SF y)) as [[]|].
Qed.

Lemma ltb_not_nan x y : (x <? y) = true → not_nan x ∧ not_nan y.
Proof.
  rewrite ltb_spec. unfold SFltb, not_nan.
  destruct (SFcompare (Prim2SF x) (Prim2SF y)) as [c|] eqn:E; [|done].
  intros _. by eapply SFcompare_not_nan.
Qed.

Lemma leb_not_nan x y : (x <=? y) = true → not_nan x ∧ not_nan y.
Proof.
  rewrite leb_spec. unfold SFleb, not_nan.
  destruct (SFcompare (Prim2SF x) (Prim2SF y)) as [c|] eqn:E; [|done].
  intros _. by eapply SFcompare_not_nan.
Qed.

(** Two numbers are always ordered one way or the other. *)
Lemma leb_or_gt x y : not_nan x → not_nan y → (x <=? y) = negb (y <? x).
Proof.
  unfold not_nan. intros Hx Hy. rewrite ltb_spec, leb_spec. unfold SFltb, SFleb.
  rewrite (SFcompare_antisym (Prim2SF x) (Prim2SF y)).
  destruct (SFcompare_defined _ _ Hx Hy) as [c ->]. by destruct c.
Qed.

(** ** Bar colours *)

(** The rule of the grid quality chart: above 0.8, above 0.6 up to 0.8, and
    the rest (NaN included). *)
Lemma quality_bar_color_rule v :
  ((0.8 <? v) = true → quality_bar_color v = "green") ∧
  ((0.6 <? v) = true → (v <=? 0.8) = true → quality_bar_color v = "orange") ∧
  ((0.8 <? v) = false → ((0.6 <? v) && (v <=? 0.8))%bool = false →
   quality_bar_color v = "red").
Proof.
  unfold quality_bar_color. split_and!.
  - by intros ->.
  - intros H6 H8. by rewrite (leb_not_ltb _ _ H8), H6.
  - intros H8 Hmid. rewrite H8.
    destruct (0.6 <? v) eqn:H6; [|done]. simpl in Hmid.
    destruct (ltb_not_nan _ _ H6) as [_ Hv].
    assert (not_nan 0.8) as H08 by (unfold not_nan; by vm_compute).
    rewrite (leb_or_gt v 0.8 Hv H08), H8 in Hmid. done.
Qed.

(** The rule of the data quality chart: from 0.9, from 0.8 below 0.9, and
    the rest (NaN included). *)
Lemma data_quality_bar_color_rule v :
  ((0.9 <=? v) = true → data_quality_bar_color v = "green") ∧
  ((0.8 <=? v) = true → (v <? 0.9) = true → data_quality_bar_color v = "orange") ∧
  ((0.9 <=? v) = false → ((0.8 <=? v) && (v <? 0.9))%bool = false →
   data_quality_bar_color v = "red").
Proof.
  unfold data_quality_bar_color. split_and!.
  - by intros ->.
  - intros H8 H9. by rewrite (ltb_not_leb _ _ H9), H8.
  - intros H9 Hmid. rewrite H9.
    destruct (0.8 <=? v) eqn:H8; [|done]. simpl in Hmid.
    destruct (leb_not_nan _ _ H8) as [_ Hv].
    assert (not_nan 0.9) as H09 by (unfold not_nan; by vm_compute).
    rewrite (leb_or_gt 0.9 v H09 Hv), Hmid in H9. done.
Qed.

(** The bars of a non-empty grid quality chart. *)
Lemma quality_chart_bars ax metrics :
  metrics ≠ [] →
  ∃ rest,
    draws ax (_plot_quality_metrics_chart ax metrics)
      (mkCall OnAxes "barh"
         [VList (VStr <$> metrics.*1); VList (VFloat <$> metrics.*2)]
         [("color", VList (VStr <$> (quality_bar_color <$> metrics.*2)))] :: rest).
Proof.
  intros Hne. destruct metrics as [|kv metrics]; [done|].
  eexists. unfold _plot_quality_metrics_chart. prove_draws.
Qed.

(** C4 (as amended). The grid quality chart colours the bar of a score [v]
    green when [v > 0.8], orange when [0.6 < v <= 0.8] and red otherwise; the
    bars of a non-empty chart carry these colours in the order of the scores. *)
Theorem quality_chart_colors ax metrics :
  metrics ≠ [] →
  (∃ rest,
     draws ax (_plot_quality_metrics_chart ax metrics)
       (mkCall OnAxes "barh"
          [VList (VStr <$> metrics.*1); VList (VFloat <$> metrics.*2)]
          [("color", VList (VStr <$> (quality_bar_color <$> metrics.*2)))] :: rest)) ∧
  ∀ v,
    ((0.8 <? v) = true → quality_bar_color v = "green") ∧
    ((0.6 <? v) = true → (v <=? 0.8) = true → quality_bar_color v = "orange") ∧
    ((0.8 <? v) = false → ((0.6 <? v) && (v <=? 0.8))%bool = false →
     quality_bar_color v = "red").
Proof.
  intros Hne. split.
  - by apply quality_chart_bars.
  - apply quality_bar_color_rule.
Qed.

(** C5 (as amended). The data quality chart colours the bar of a score [v]
    green when [v >= 0.9], orange when [0.8 <= v < 0.9] and red otherwise, and
    its five bars carry these colours; the grid quality chart has thresholds
    of its own: green when [v > 0.8], orange when [0.6 < v <= 0.8], red
    otherwise. *)
Theorem data_quality_colors self ax kw :
  (∃ rest,
     draws ax (_plot_data_quality_metrics self ax kw)
       (mkCall OnAxes "bar"
          [VList (VStr <$> ["Completeness"; "Consistency"; "Temporal Coverage";
                            "Spatial Coverage"; "Value Ranges"]);
           VList (VFloat <$> [0.95; 0.88; 0.92; 0.85; 0.90])]
          [("color", VList (VStr <$> ["green"; "orange"; "green"; "orange"; "green"]));
           ("alpha", VFloat 0.7); ("edgecolor", VStr "black")] :: rest)) ∧
  ∀ v,
    (((0.9 <=? v) = true → data_quality_bar_color v = "green") ∧
     ((0.8 <=? v) = true → (v <? 0.9) = true → data_quality_bar_color v = "orange") ∧
     ((0.9 <=? v) = false → ((0.8 <=? v) && (v <? 0.9))%bool = false →
      data_quality_bar_color v = "red")) ∧
    (((0.8 <? v) = true → quality_bar_color v = "green") ∧
     ((0.6 <? v) = true → (v <=? 0.8) = true → quality_bar_color v = "orange") ∧
     ((0.8 <? v) = false → ((0.6 <? v) && (v <=? 0.8))%bool = false →
      quality_bar_color v = "red")).
Proof.
  split.
  - eexists. unfold _plot_data_quality_metrics.
    eapply draws_eq; [prove_draws | reflexivity].
  - intros v. split; [apply data_quality_bar_color_rule | apply quality_bar_color_rule].
Qed.

(** ** Validation colours *)

(** C6. The validation chart colours the bar of each check by its status:
    PASS green, WARNING orange, FAIL red, and any other status gray. *)
Theorem validation_colors ax results :
  results ≠ [] →
  (∃ rest,
     draws ax (_plot_validation_results ax results)
       (mkCall OnAxes "barh"
          [VList ((λ i, VInt (Z.of_nat i)) <$> seq 0 (length results));
           VList (replicate (length results) (VInt 1))]
          [("color", VList (VStr <$> (status_color <$> results.*2)));
           ("alpha", VFloat 0.7)] :: rest)) ∧
  status_color "PASS" = "green" ∧
  status_color "WARNING" = "orange" ∧
  status_color "FAIL" = "red" ∧
  ∀ status,
    status ≠ "PASS" → status ≠ "WARNING" → status ≠ "FAIL" →
    status_color status = "gray".
Proof.
  intros Hne. split_and!.
  - destruct results as [|kv results]; [done|].
    eexists. unfold _plot_validation_results. prove_draws.
  - done.
  - done.
  - done.
  - intros status Hp Hw Hf. unfold status_color, colors.
    by rewrite !lookup_insert_ne, lookup_empty.
Qed.

(** ** Depth statistics *)

(** C7. On a grid whose depths are 1.0, 2.0, 3.0 and NaN, the depth histogram
    is drawn from the three numbers, and the grid statistics are computed
    from them: minimum 1.0, maximum 3.0, mean 2.0. *)
Theorem depth_statistics_skip_nan self g n m ax kw :
  grid self = Some g →
  node g = Some n →
  nSCHISM_hgrid_face g = Some m →
  depth g = Some [1; 2; 3; nan] →
  (∃ rest,
     draws ax (_plot_depth_histogram self ax kw)
       (mkCall OnAxes "hist" [VList [VFloat 1; VFloat 2; VFloat 3]]
          [("bins", VInt 50); ("alpha", VFloat 0.7); ("edgecolor", VStr "black")] :: rest)) ∧
  (∀ s, _calculate_grid_statistics self s =
        (Ok [("Total Nodes", Py.format_thousands n);
             ("Total Elements", Py.format_thousands m);
             ("Min Depth", "1.00 m");
             ("Max Depth", "3.00 m");
             ("Mean Depth", "2.00 m");
             ("Depth Std", "0.82 m")], s)) ∧
  Np.drop_nan [1; 2; 3; nan] = [1; 2; 3] ∧
  Np.min [1; 2; 3] = Some 1 ∧
  Np.max [1; 2; 3] = Some 3 ∧
  Np.mean [1; 2; 3] = 2.
Proof.
  intros Hg Hn Hm Hd. split_and!; try done.
  - eexists. unfold _plot_depth_histogram. rewrite Hg, Hd.
    eapply draws_eq; [prove_draws | reflexivity].
  - intros s. unfold _calculate_grid_statistics. rewrite Hg, Hn, Hm, Hd.
    unfold try_except, bind, lookup_or_raise, ret. cbv beta iota.
    generalize (Py.format_thousands n) (Py.format_thousands m). intros nodes elements.
    reflexivity.
Qed.

(** ** The statistics table *)

Lemma statistics_table_data_length items :
  length (statistics_table_data items) = ((length items + 3 - 1) / 3)%nat.
Proof. unfold statistics_table_data. by rewrite length_fmap, length_seq. Qed.

Lemma statistics_table_data_row items r :
  (r < length (statistics_table_data items))%nat →
  statistics_table_data items !! r =
    Some (concat ((λ col, match items !! (r * 3 + col)%nat with
                          | Some (key, value) => [key; value]
                          | None => [""; ""]
                          end) <$> seq 0 3)).
Proof.
  rewrite statistics_table_data_length. intros Hr.
  unfold statistics_table_data. rewrite list_lookup_fmap, lookup_seq_lt; done.
Qed.

(** C8. A non-empty mapping of [n] pairs is laid out in the least number of
    rows of three pairs that holds them, each row of six cells; the slot of
    row [r] and column [c] holds the key and the value of pair [3 r + c], or
    two empty strings past the last pair; the table is drawn without failure. *)
Theorem statistics_table_layout ax stats title :
  stats ≠ [] →
  (∃ rest,
     draws ax (_create_statistics_table ax stats title)
       (mkCall OnAxes "table" []
          [("cellText", VList ((λ row, VList (VStr <$> row)) <$> statistics_table_data stats));
           ("cellLoc", VStr "left"); ("loc", VStr "center")] :: rest)) ∧
  (length stats ≤ 3 * length (statistics_table_data stats) < length stats + 3)%nat ∧
  (∀ row, row ∈ statistics_table_data stats → length row = 6%nat) ∧
  (∀ r c, (r < length (statistics_table_data stats))%nat → (c < 3)%nat →
     ∃ row, statistics_table_data stats !! r = Some row ∧
       row !! (2 * c)%nat =
         Some (match stats !! (r * 3 + c)%nat with Some (key, _) => key | None => "" end) ∧
       row !! (2 * c + 1)%nat =
         Some (match stats !! (r * 3 + c)%nat with Some (_, value) => value | None => "" end)).
Proof.
  intros Hne. split; [|split; [|split]].
  - destruct stats as [|kv stats]; [done|].
    eexists. unfold _create_statistics_table. prove_draws.
  - rewrite statistics_table_data_length.
    pose proof (Nat.div_mod_eq (length stats + 3 - 1) 3).
    pose proof (Nat.mod_upper_bound (length stats + 3 - 1) 3).
    lia.
  - intros row Hrow. apply list_elem_of_lookup in Hrow as [r Hr].
    pose proof (lookup_lt_Some _ _ _ Hr) as Hlt.
    rewrite (statistics_table_data_row _ _ Hlt) in Hr. injection Hr as <-. simpl.
    by destruct (stats !! (r * 3 + 0)%nat) as [[]|], (stats !! (r * 3 + 1)%nat) as [[]|],
      (stats !! (r * 3 + 2)%nat) as [[]|].
  - intros r c Hr Hc. eexists. split; [by apply statistics_table_data_row|]. simpl.
    destruct c as [|[|[|c]]]; [| | |lia]; simpl;
      by destruct (stats !! (r * 3 + 0)%nat) as [[]|], (stats !! (r * 3 + 1)%nat) as [[]|],
        (stats !! (r * 3 + 2)%nat) as [[]|].
Qed.

(** ** Failures of a region *)

(** Without a grid handle the grid-dependent panels show their
    placeholders. *)
Lemma placeholders_without_grid self ax kw :
  grid self = None →
  draws ax (_plot_depth_histogram self ax kw) [placeholder_call "Grid data unavailable"] ∧
  draws ax (_plot_grid_statistics_table self ax kw)
    [placeholder_call "Grid statistics unavailable"] ∧
  draws ax (_plot_quality_metrics_panel self ax kw)
    [placeholder_call "Grid quality metrics unavailable";
     mkCall OnAxes "set_title" [VStr "Grid Quality"] [("fontweight", VStr "bold")]].
Proof.
  intros Hg. unfold _plot_depth_histogram, _plot_grid_statistics_table,
    _plot_quality_metrics_panel. rewrite Hg. split_and!.
  - eapply draws_eq; [prove_draws | done].
  - eapply draws_eq; [prove_draws | done].
  - eapply draws_eq; [prove_draws | done].
Qed.

(** A failure of the bathymetry plot inside the main grid panel of the
    comprehensive overview ends in a warning and a placeholder. *)
Lemma main_grid_panel_catches self ax kw s a a' e :
  fig_axes (figure s) !! ax = Some a →
  plot_bathymetry (grid_plotter self) kw a = (a', Some e) →
  ∃ s', _plot_main_grid_panel self ax kw s = (Ok tt, s') ∧
        calls_on ax s' = Some (calls a' ++ [placeholder_call "Grid visualization unavailable"]) ∧
        records s' = records s ++
          [{| levelname := WARNING;
              msg := "Could not plot main grid panel: " +:+ str_exn e |}].
Proof.
  intros Ha Hd. eexists. split_and!.
  - unfold _plot_main_grid_panel, try_except.
    erewrite bind_raise; [|unfold delegate; by rewrite Ha, Hd].
    reflexivity.
  - unfold calls_on, AxRef in *. simpl.
    rewrite !list_lookup_alter_eq, Ha. done.
  - done.
Qed.

Lemma bind_raises {A B} (m : M A) (k : A → M B) s e :
  (m s).1 = Raise e → (bind m k s).1 = Raise e.
Proof. unfold bind. destruct (m s) as [[a|e'] s1]; simpl; [done|]. by intros [= ->]. Qed.

(** C1 (the code departs from it). The grid analysis overview calls the
    bathymetry plot outside any [try] statement: when that call raises, the
    composing call raises the same exception instead of showing a
    placeholder in the region. *)
Theorem grid_analysis_overview_raises self figsize save_path kw e :
  (∀ a, (plot_bathymetry (grid_plotter self) kw a).2 = Some e) →
  ∀ s, (plot_grid_analysis_overview self figsize save_path kw s).1 = Raise e.
Proof.
  intros Hfails s. unfold plot_grid_analysis_overview.
  erewrite bind_ok by reflexivity. cbv beta zeta.
  erewrite bind_ok by reflexivity. cbv beta zeta.
  apply bind_raises.
  unfold delegate. simpl.
  match goal with |- context [plot_bathymetry ?gp kw ?a] =>
    specialize (Hfails a); destruct (plot_bathymetry gp kw a) as [a' r] end.
  simpl in Hfails. by subst r.
Qed.

(** ** The regions an overview returns *)



(** ** Saving and the composing call *)

(** C9. The save operation makes the parent directory of the path and then
    writes the figure on the disk so obtained (it writes nothing when the
    directory cannot be made); a failure of either step is caught and
    recorded at error level; the composing call returns the figure and the
    mapping it would return without saving. *)
Theorem save_failures_are_caught self fig p s figsize v q d kw :
  let path := to_Path p in
  let made := mkdir_parents os (parent os path) (disk s) in
  let written := savefig os fig path (dpi (plot_config self)) made.1 in
  let saved := _save_plot self fig p s in
  saved.1 = Ok tt ∧
  figure saved.2 = figure s ∧
  (made.2 = None → disk saved.2 = written.1) ∧
  (made.2 ≠ None → disk saved.2 = made.1) ∧
  (made.2 = None → written.2 = None →
   records saved.2 = records s ++
     [{| levelname := INFO; msg := "Overview plot saved to " +:+ str_of_Path os path |}]) ∧
  (∀ e, made.2 = Some e ∨ (made.2 = None ∧ written.2 = Some e) →
   records saved.2 = records s ++
     [{| levelname := ERROR;
         msg := "Could not save plot to " +:+ str_of_Path os path +:+ ": " +:+ str_exn e |}]) ∧
  (plot_comprehensive_overview self figsize v q d (Some p) kw s).1
    = (plot_comprehensive_overview self figsize v q d None kw s).1 ∧
  (plot_grid_analysis_overview self figsize (Some p) kw s).1
    = (plot_grid_analysis_overview self figsize None kw s).1 ∧
  (plot_data_analysis_overview self figsize (Some p) kw s).1
    = (plot_data_analysis_overview self figsize None kw s).1.
Proof.
  intros path made written saved.
  assert (∀ A B C C' D E : Prop, A ∧ B ∧ C ∧ C' ∧ D ∧ E → ∀ F G H : Prop, F → G → H →
          A ∧ B ∧ C ∧ C' ∧ D ∧ E ∧ F ∧ G ∧ H) as Hsplit by tauto.
  apply Hsplit; clear Hsplit.
  - pose proof (_save_plot_cases self fig p s) as Hcases. simpl in Hcases.
    subst saved written made path.
    destruct (mkdir_parents os _ (disk s)) as [d1 [e1|]]; simpl in *;
      destruct (savefig os fig _ _ d1) as [d2 [e2|]]; rewrite Hcases; simpl.
    all: split_and!; try done; naive_solver.
  - rewrite comprehensive_overview_then_saved. apply then_saved_result.
  - rewrite grid_analysis_overview_then_saved. apply then_saved_result.
  - rewrite data_analysis_overview_then_saved. apply then_saved_result.
Qed.

(** C10. A save path that is [None] or the empty string skips the save
    step: the call is the call without a save path, result and state, and
    its disk is the disk it started from.  A save path that is true runs
    [_save_plot] on what was composed. *)
Theorem falsy_save_path_skips_saving self figsize v q d kw s :
  (plot_comprehensive_overview self figsize v q d (Some (path_str "")) kw s
     = plot_comprehensive_overview self figsize v q d None kw s ∧
   plot_grid_analysis_overview self figsize (Some (path_str "")) kw s
     = plot_grid_analysis_overview self figsize None kw s ∧
   plot_data_analysis_overview self figsize (Some (path_str "")) kw s
     = plot_data_analysis_overview self figsize None kw s) ∧
  (disk (plot_comprehensive_overview self figsize v q d None kw s).2 = disk s ∧
   disk (plot_grid_analysis_overview self figsize None kw s).2 = disk s ∧
   disk (plot_data_analysis_overview self figsize None kw s).2 = disk s) ∧
  (∀ p fig axes s',
     truthy (Some p) = true →
     (plot_comprehensive_overview self figsize v q d None kw s = (Ok (fig, axes), s') →
      plot_comprehensive_overview self figsize v q d (Some p) kw s
        = (Ok (fig, axes), (_save_plot self fig p s').2)) ∧
     (plot_grid_analysis_overview self figsize None kw s = (Ok (fig, axes), s') →
      plot_grid_analysis_overview self figsize (Some p) kw s
        = (Ok (fig, axes), (_save_plot self fig p s').2)) ∧
     (plot_data_analysis_overview self figsize None kw s = (Ok (fig, axes), s') →
      plot_data_analysis_overview self figsize (Some p) kw s
        = (Ok (fig, axes), (_save_plot self fig p s').2))).
Proof.
  split_and!.
  - rewrite comprehensive_overview_then_saved. by apply then_saved_falsy.
  - rewrite grid_analysis_overview_then_saved. by apply then_saved_falsy.
  - rewrite data_analysis_overview_then_saved. by apply then_saved_falsy.
  - apply composition_keeps_disk.
  - apply (composition_keeps_disk self figsize v q d kw).
  - apply (composition_keeps_disk self figsize v q d kw).
  - intros p fig axes s' Htrue. split_and!; intros Hrun.
    + rewrite comprehensive_overview_then_saved, Hrun. unfold then_saved. by rewrite Htrue.
    + rewrite grid_analysis_overview_then_saved, Hrun. unfold then_saved. by rewrite Htrue.
    + rewrite data_analysis_overview_then_saved, Hrun. unfold then_saved. by rewrite Htrue.
Qed.

(** ** What rendering preserves *)

Section preserved.

Context (R : State FS → State FS → Prop) `{!PreOrder R}.

Lemma preserves_ret {A} (a : A) : preserves R (ret a).
Proof. intros s. simpl. reflexivity. Qed.

Lemma preserves_raise {A} e : preserves R (raise e : M A).
Proof. intros s. simpl. reflexivity. Qed.

Lemma preserves_lookup_or_raise {A} (o : option A) what :
  preserves R (lookup_or_raise o what).
Proof. destruct o; [apply preserves_ret | apply preserves_raise]. Qed.


Lemma preserves_bind {A B} (m : M A) (k : A → M B) :
  preserves R m → (∀ a, preserves R (k a)) → preserves R (bind m k).
Proof.
  intros Hm Hk s. specialize (Hm s). unfold bind.
  destruct (m s) as [[a|e] s1]; simpl in *; [|done].
  etrans; [exact Hm | apply Hk].
Qed.

Lemma preserves_try_except {A} (body : M A) (handler : Exn → M A) :
  preserves R body → (∀ e, preserves R (handler e)) → preserves R (try_except body handler).
Proof.
  intros Hb Hh s. specialize (Hb s). unfold try_except.
  destruct (body s) as [[a|e] s1]; simpl in *; [done|].
  etrans; [exact Hb | apply Hh].
Qed.

Lemma preserves_for_each {A} (l : list A) (body : nat → A → M unit) i :
  (∀ i x, preserves R (body i x)) → preserves R (for_each l i body).
Proof.
  intros Hbody. revert i.
  induction l as [|x l IH]; intros i; simpl.
  - apply preserves_ret.
  - apply preserves_bind; auto.
Qed.

Lemma preserves_modify f : (∀ s, R s (f s)) → preserves R (modify f).
Proof. intros Hf s. apply Hf. Qed.

(** What a panel does to the state: it records calls on regions, lets
    collaborators work on them, and logs warnings. *)
Hypothesis R_region : ∀ s f ax, R s (with_axes (alter f ax) s).
Hypothesis R_warning : ∀ s m,
  R s (mkState (figure s) (records s ++ [{| levelname := WARNING; msg := m |}]) (disk s)).

Lemma preserves_ax_call ax t meth a kw : preserves R (ax_call ax t meth a kw).
Proof. apply preserves_modify. intros s. apply R_region. Qed.

Lemma preserves_warning m : preserves R (logger WARNING m).
Proof. apply preserves_modify. intros s. apply R_warning. Qed.

Lemma preserves_delegate ax d : preserves R (delegate ax d).
Proof.
  intros s. unfold delegate.
  destruct (fig_axes (figure s) !! ax) as [a|]; simpl; [|reflexivity].
  destruct (d a) as [a' r]. simpl. apply R_region.
Qed.

Ltac preserves_step :=
  lazymatch goal with
  | |- preserves _ (bind _ _) => apply preserves_bind; [|intros]
  | |- preserves _ (try_except _ _) => apply preserves_try_except; [|intros]
  | |- preserves _ (for_each _ _ _) => apply preserves_for_each; intros
  | |- preserves _ (ret _) => apply preserves_ret
  | |- preserves _ (ax_call _ _ _ _ _) => apply preserves_ax_call
  | |- preserves _ (logger WARNING _) => apply preserves_warning
  | |- preserves _ (delegate _ _) => apply preserves_delegate
  | |- preserves _ (lookup_or_raise _ _) => apply preserves_lookup_or_raise
  | |- preserves _ (match ?x with _ => _ end) => destruct x
  end.

Ltac prove_preserves :=
  unfold placeholder, set_title, grid_on, axis_off;
  repeat (cbv zeta; preserves_step).

Lemma rendering_preserves self ax kw :
  preserves R (_plot_main_grid_panel self ax kw) ∧
  preserves R (_plot_boundary_panel self ax kw) ∧
  preserves R (_plot_data_locations_panel self ax kw) ∧
  preserves R (_plot_quality_metrics_panel self ax kw) ∧
  preserves R (_plot_validation_panel self ax kw) ∧
  preserves R (_plot_data_summary_panel self ax kw) ∧
  preserves R (_plot_timeseries_overview_panel self ax kw) ∧
  preserves R (_plot_model_info_panel self ax kw) ∧
  preserves R (_plot_depth_histogram self ax kw) ∧
  preserves R (_plot_element_size_histogram self ax kw) ∧
  preserves R (_plot_grid_statistics_table self ax kw) ∧
  preserves R (_plot_atmospheric_overview self ax kw) ∧
  preserves R (_plot_boundary_data_locations self ax kw) ∧
  preserves R (_plot_data_coverage_timeline self ax kw) ∧
  preserves R (_plot_atmospheric_timeseries_overview self ax kw) ∧
  preserves R (_plot_boundary_timeseries_overview self ax kw) ∧
  preserves R (_plot_data_quality_metrics self ax kw) ∧
  preserves R (_plot_data_statistics_table self ax kw).
Proof.
  split_and!.
  all: unfold _plot_main_grid_panel, _plot_boundary_panel, _plot_data_locations_panel,
    _plot_quality_metrics_panel, _plot_validation_panel, _plot_data_summary_panel,
    _plot_timeseries_overview_panel, _plot_model_info_panel, _plot_depth_histogram,
    _plot_element_size_histogram, _plot_grid_statistics_table, _plot_atmospheric_overview,
    _plot_boundary_data_locations, _plot_data_coverage_timeline,
    _plot_atmospheric_timeseries_overview, _plot_boundary_timeseries_overview,
    _plot_data_quality_metrics, _plot_data_statistics_table,
    _get_grid_info, _add_data_source_markers, _calculate_quality_metrics,
    _plot_quality_metrics_chart, _run_validation_checks, _plot_validation_results,
    _get_data_summary, _plot_data_summary_chart, _plot_forcing_timeseries_overview,
    _get_model_info, _plot_model_info_table, _calculate_grid_statistics,
    _create_statistics_table.
  all: prove_preserves.
Qed.

End preserved.

Lemma same_regions_preorder : PreOrder same_regions.
Proof.
  split.
  - by intros s.
  - intros s1 s2 s3 H12 H23. unfold same_regions in *. congruence.
Qed.


(** No panel adds or removes a region of the figure. *)
Lemma rendering_keeps_regions self ax kw :
  preserves same_regions (_plot_main_grid_panel self ax kw) ∧
  preserves same_regions (_plot_boundary_panel self ax kw) ∧
  preserves same_regions (_plot_data_locations_panel self ax kw) ∧
  preserves same_regions (_plot_quality_metrics_panel self ax kw) ∧
  preserves same_regions (_plot_validation_panel self ax kw) ∧
  preserves same_regions (_plot_data_summary_panel self ax kw) ∧
  preserves same_regions (_plot_timeseries_overview_panel self ax kw) ∧
  preserves same_regions (_plot_model_info_panel self ax kw) ∧
  preserves same_regions (_plot_depth_histogram self ax kw) ∧
  preserves same_regions (_plot_element_size_histogram self ax kw) ∧
  preserves same_regions (_plot_grid_statistics_table self ax kw) ∧
  preserves same_regions (_plot_atmospheric_overview self ax kw) ∧
  preserves same_regions (_plot_boundary_data_locations self ax kw) ∧
  preserves same_regions (_plot_data_coverage_timeline self ax kw) ∧
  preserves same_regions (_plot_atmospheric_timeseries_overview self ax kw) ∧
  preserves same_regions (_plot_boundary_timeseries_overview self ax kw) ∧
  preserves same_regions (_plot_data_quality_metrics self ax kw) ∧
  preserves same_regions (_plot_data_statistics_table self ax kw).
Proof.
  apply (rendering_preserves same_regions (PreOrder0 := same_regions_preorder)).
  - intros s f ax'. unfold same_regions. simpl. by rewrite length_alter.
  - by intros s m.
Qed.


(** ** Regions and their names *)




















(** ** Where an exception can come from *)







(** ** Titles *)

Lemma ends_with_last_call ax (m : M unit) t meth a kw :
  safe m →
  preserves same_regions (bind m (λ _, ax_call ax t meth a kw)) →
  ends_with ax (bind m (λ _, ax_call ax t meth a kw)) (mkCall t meth a kw).
Proof.
  intros Hsafe Hkeeps s Hax.
  destruct (Hsafe s) as ([] & s1 & Hrun & _).
  specialize (Hkeeps s). unfold same_regions in Hkeeps.
  rewrite (bind_ok _ _ _ _ _ Hrun) in Hkeeps. simpl in Hkeeps.
  rewrite length_alter in Hkeeps.
  destruct (lookup_lt_is_Some_2 (fig_axes (figure s1)) ax) as [a1 Ha1]; [lia|].
  eexists _, (calls a1). rewrite (bind_ok _ _ _ _ _ Hrun). split; [done|].
  apply calls_on_record. unfold calls_on, AxRef in *. by rewrite Ha1.
Qed.

Ltac title_is_last self ax kw :=
  apply ends_with_last_call;
  [ prove_safe; auto with safe
  | pose proof (rendering_keeps_regions self ax kw); destruct_and!; assumption ].

(** X3. Eleven panels set their title after their [try] statement: whatever
    happened inside, also a failure of a collaborator, the last call on the
    region is the title of the panel. *)
Theorem title_is_set_last self ax kw :
  let title t := mkCall OnAxes "set_title" [VStr t] [("fontweight", VStr "bold")] in
  ends_with ax (_plot_quality_metrics_panel self ax kw) (title "Grid Quality") ∧
  ends_with ax (_plot_validation_panel self ax kw) (title "Model Validation") ∧
  ends_with ax (_plot_data_summary_panel self ax kw) (title "Data Summary") ∧
  ends_with ax (_plot_timeseries_overview_panel self ax kw) (title "Forcing Overview") ∧
  ends_with ax (_plot_model_info_panel self ax kw) (title "Model Configuration") ∧
  ends_with ax (_plot_atmospheric_overview self ax kw) (title "Atmospheric Forcing") ∧
  ends_with ax (_plot_boundary_data_locations self ax kw) (title "Boundary Data Locations") ∧
  ends_with ax (_plot_data_coverage_timeline self ax kw) (title "Data Coverage Timeline") ∧
  ends_with ax (_plot_atmospheric_timeseries_overview self ax kw)
    (title "Atmospheric Forcing Time Series") ∧
  ends_with ax (_plot_boundary_timeseries_overview self ax kw) (title "Boundary Conditions") ∧
  ends_with ax (_plot_data_quality_metrics self ax kw) (title "Data Quality").
Proof.
  intros title. subst title. split_and!.
  all: unfold _plot_quality_metrics_panel, _plot_validation_panel, _plot_data_summary_panel,
    _plot_timeseries_overview_panel, _plot_model_info_panel, _plot_atmospheric_overview,
    _plot_boundary_data_locations, _plot_data_coverage_timeline,
    _plot_atmospheric_timeseries_overview, _plot_boundary_timeseries_overview,
    _plot_data_quality_metrics; unfold set_title at 1.
  all: title_is_last self ax kw.
Qed.

(** ** The log *)









(** ** Grids that are incomplete *)



Lemma grid_statistics_cases self s :
  ∃ stats s',
    _calculate_grid_statistics self s = (Ok stats, s') ∧
    figure s' = figure s ∧ disk s' = disk s ∧
    match grid self with
    | None => stats = [] ∧ s' = s
    | Some g =>
        (has_statistics g →
         stats.*1 = ["Total Nodes"; "Total Elements"; "Min Depth"; "Max Depth";
                     "Mean Depth"; "Depth Std"] ∧ s' = s) ∧
        (¬ has_statistics g →
         stats = [] ∧
         ∃ detail, records s' = records s ++
           [{| levelname := WARNING;
               msg := "Could not calculate grid statistics: " +:+ detail |}])
    end.
Proof.
  unfold _calculate_grid_statistics, has_statistics.
  destruct (grid self) as [g|]; [|by eexists _, _].
  destruct (node g) as [n|];
    [|eexists _, _; split_and!; try done;
      [unfold is_Some; naive_solver | intros _; split; [done | by eexists]]].
  destruct (nSCHISM_hgrid_face g) as [m|];
    [|eexists _, _; split_and!; try done;
      [unfold is_Some; naive_solver | intros _; split; [done | by eexists]]].
  destruct (depth g) as [depths|];
    [|eexists _, _; split_and!; try done;
      [naive_solver | intros _; split; [done | by eexists]]].
  unfold try_except, bind, lookup_or_raise, ret, raise. cbv beta iota.
  destruct (Np.drop_nan depths) as [|x rest] eqn:Hfinite.
  - eexists _, _; split_and!; try done.
    + intros (_ & _ & ? & [= <-] & Hne). by rewrite Hfinite in Hne.
    + intros _; split; [done | by eexists].
  - eexists _, _; split_and!; try done.
    intros Hnot. destruct Hnot. split_and!; try done.
    exists depths. by rewrite Hfinite.
Qed.

(** X6. The grid statistics are all or nothing.  [_calculate_grid_statistics]
    never raises and leaves figure and disk alone; it returns its six
    statistics, silently, when the grid handle has both coordinates and a
    depth array with at least one entry that is a number; with no grid
    handle it returns the empty mapping, silently; in every other case
    (a missing coordinate, no depth array, an empty one or one of NaN only)
    it returns the empty mapping and logs one warning.  The statistics panel
    then shows, for such a grid, the label of an empty table, not the label
    it shows without a grid. *)
Theorem grid_statistics_all_or_nothing self ax kw s :
  (∃ stats s',
     _calculate_grid_statistics self s = (Ok stats, s') ∧
     figure s' = figure s ∧ disk s' = disk s ∧
     match grid self with
     | None => stats = [] ∧ s' = s
     | Some g =>
         (has_statistics g →
          stats.*1 = ["Total Nodes"; "Total Elements"; "Min Depth"; "Max Depth";
                      "Mean Depth"; "Depth Std"] ∧ s' = s) ∧
         (¬ has_statistics g →
          stats = [] ∧
          ∃ detail, records s' = records s ++
            [{| levelname := WARNING;
                msg := "Could not calculate grid statistics: " +:+ detail |}])
     end) ∧
  (∀ g, grid self = Some g → ¬ has_statistics g →
     draws ax (_plot_grid_statistics_table self ax kw)
       [placeholder_call "No grid statistics available";
        mkCall OnAxes "axis" [VStr "off"] []]) ∧
  (grid self = None →
     draws ax (_plot_grid_statistics_table self ax kw)
       [placeholder_call "Grid statistics unavailable"]).
Proof.
  split_and!.
  - apply grid_statistics_cases.
  - intros g Hg Hnot. unfold _plot_grid_statistics_table. rewrite Hg.
    apply draws_try_except. intros s0 before Hbefore.
    destruct (grid_statistics_cases self s0) as (stats & s1 & Hrun & Hfig & _ & Hcases).
    rewrite Hg in Hcases. destruct Hcases as [_ Hempty].
    destruct (Hempty Hnot) as [-> _].
    rewrite (bind_ok _ _ _ _ _ Hrun).
    assert (draws ax (_create_statistics_table ax [] "Grid Statistics")
              [placeholder_call "No grid statistics available";
               mkCall OnAxes "axis" [VStr "off"] []]) as Hdraws.
    { unfold _create_statistics_table. eapply draws_eq; [prove_draws | done]. }
    apply Hdraws. unfold calls_on in *. by rewrite Hfig.
  - intros Hg. unfold _plot_grid_statistics_table. rewrite Hg.
    eapply draws_eq; [prove_draws | done].
Qed.

(** X7. [_get_grid_info] never raises and leaves figure and disk alone.  It
    answers "Grid info unavailable" silently when there is no grid handle,
    and with one warning when the handle lacks a coordinate or its depth
    array or has an empty depth array; for a grid with both coordinates and
    a depth that is a number it answers with another text and logs nothing. *)
Theorem grid_info_or_unavailable self s :
  ∃ info s',
    _get_grid_info self s = (Ok info, s') ∧
    figure s' = figure s ∧ disk s' = disk s ∧
    match grid self with
    | None => info = "Grid info unavailable" ∧ s' = s
    | Some g =>
        (has_statistics g → info ≠ "Grid info unavailable" ∧ s' = s) ∧
        (node g = None ∨ nSCHISM_hgrid_face g = None ∨ depth g = None ∨ depth g = Some [] →
         info = "Grid info unavailable" ∧
         ∃ detail, records s' = records s ++
           [{| levelname := WARNING; msg := "Could not get grid info: " +:+ detail |}])
    end.
Proof.
  unfold _get_grid_info, has_statistics.
  destruct (grid self) as [g|]; [|by eexists _, _].
  destruct (node g) as [n|];
    [|eexists _, _; split_and!; try done;
      [unfold is_Some; naive_solver | intros _; split; [done | by eexists]]].
  destruct (nSCHISM_hgrid_face g) as [m|];
    [|eexists _, _; split_and!; try done;
      [unfold is_Some; naive_solver | intros _; split; [done | by eexists]]].
  destruct (depth g) as [depths|];
    [|eexists _, _; split_and!; try done;
      [naive_solver | intros _; split; [done | by eexists]]].
  unfold try_except, bind, lookup_or_raise, ret, raise. cbv beta iota.
  destruct depths as [|x rest].
  - eexists _, _; split_and!; try done.
    + naive_solver.
    + intros _; split; [done | by eexists].
  - unfold Np.nanmin, Np.nanmax. cbv beta iota.
    eexists _, _; split_and!; try done. naive_solver.
Qed.

(** ** The depth histogram *)


(** ** The cells of the statistics table, read row by row *)

Lemma statistics_table_data_three a b c rest :
  statistics_table_data (a :: b :: c :: rest) =
  [a.1; a.2; b.1; b.2; c.1; c.2] :: statistics_table_data rest.
Proof.
  unfold statistics_table_data. simpl length.
  replace (S (S (S (length rest))) + 3 - 1)%nat with ((length rest + 3 - 1) + 1 * 3)%nat by lia.
  rewrite Nat.div_add by lia. rewrite Nat.add_1_r.
  rewrite <- (cons_seq ((length rest + 3 - 1) / 3) 0), fmap_cons. f_equal.
  - by destruct a, b, c.
  - rewrite <- fmap_S_seq, <- list_fmap_compose. by apply list_fmap_ext.
Qed.

Lemma flat_pairs_length items : length (flat_pairs items) = (2 * length items)%nat.
Proof.
  induction items as [|[k v] items IH]; [done|].
  change (flat_pairs ((k, v) :: items)) with (k :: v :: flat_pairs items).
  simpl. rewrite IH. lia.
Qed.

Lemma statistics_table_data_cells n items :
  (length items ≤ n)%nat →
  concat (statistics_table_data items) =
  flat_pairs items ++
  replicate (6 * length (statistics_table_data items) - 2 * length items) "".
Proof.
  revert items. induction n as [|n IH]; intros items Hn.
  { destruct items; [done | simpl in Hn; lia]. }
  destruct items as [|[k1 v1] [|[k2 v2] [|[k3 v3] rest]]]; [done..|].
  rewrite statistics_table_data_three.
  change (concat (?row :: ?rows)) with (row ++ concat rows).
  rewrite IH by (simpl in Hn; lia).
  change (flat_pairs ((k1, v1) :: (k2, v2) :: (k3, v3) :: rest))
    with ([k1; v1; k2; v2; k3; v3] ++ flat_pairs rest).
  rewrite <- app_assoc. do 2 f_equal.
  cbn [length]. f_equal. lia.
Qed.

(** X9. The statistics table loses nothing and invents nothing: its cells,
    read row by row, are the keys and values of the mapping in their order,
    followed by empty strings only. *)
Theorem statistics_table_cells items :
  take (2 * length items) (concat (statistics_table_data items)) = flat_pairs items ∧
  Forall (λ cell, cell = "") (drop (2 * length items) (concat (statistics_table_data items))) ∧
  length (concat (statistics_table_data items)) = (6 * length (statistics_table_data items))%nat.
Proof.
  pose proof (statistics_table_data_cells (length items) items (le_n _)) as Hcells.
  pose proof (flat_pairs_length items) as Hflat.
  assert (2 * length items ≤ 6 * length (statistics_table_data items))%nat as Hfits.
  { rewrite statistics_table_data_length.
    pose proof (Nat.div_mod_eq (length items + 3 - 1) 3).
    pose proof (Nat.mod_upper_bound (length items + 3 - 1) 3). lia. }
  rewrite Hcells. split_and!.
  - rewrite <- Hflat. by rewrite take_app_length.
  - rewrite <- Hflat, drop_app_length. by apply Forall_replicate.
  - rewrite length_app, length_replicate, Hflat. lia.
Qed.

(** ** A collaborator that fails inside a panel *)

(** X10. A panel that calls a collaborator inside its [try] statement turns
    the failure of the call into a warning with the detail of the failure
    and a placeholder recorded after whatever the collaborator had drawn;
    the panel returns.  The main grid panel and the boundary panel are then
    left without a title; the atmospheric panel gets its title. *)
Theorem collaborator_failure_shows_placeholder self ax kw s a :
  fig_axes (figure s) !! ax = Some a →
  (∀ a' e, plot_bathymetry (grid_plotter self) kw a = (a', Some e) →
     ∃ s', _plot_main_grid_panel self ax kw s = (Ok tt, s') ∧
       calls_on ax s' =
         Some (calls a' ++ [placeholder_call "Grid visualization unavailable"]) ∧
       records s' = records s ++
         [{| levelname := WARNING;
             msg := "Could not plot main grid panel: " +:+ str_exn e |}]) ∧
  (∀ a' e, plot_boundaries (grid_plotter self) (Some false) kw a = (a', Some e) →
     ∃ s', _plot_boundary_panel self ax kw s = (Ok tt, s') ∧
       calls_on ax s' = Some (calls a' ++ [placeholder_call "Boundary data unavailable"]) ∧
       records s' = records s ++
         [{| levelname := WARNING;
             msg := "Could not plot boundary panel: " +:+ str_exn e |}]) ∧
  (∀ plot a' e,
     plot_atmospheric_spatial (data_plotter self) = Some plot →
     plot false kw a = (a', Some e) →
     ∃ s', _plot_atmospheric_overview self ax kw s = (Ok tt, s') ∧
       calls_on ax s' =
         Some (calls a' ++
               [placeholder_call "Atmospheric data unavailable";
                mkCall OnAxes "set_title" [VStr "Atmospheric Forcing"]
                  [("fontweight", VStr "bold")]]) ∧
       records s' = records s ++
         [{| levelname := WARNING;
             msg := "Could not plot atmospheric overview: " +:+ str_exn e |}]).
Proof.
  intros Ha. split_and!.
  - intros a' e Hd. eexists. split_and!.
    + unfold _plot_main_grid_panel, try_except.
      erewrite bind_raise; [|unfold delegate; by rewrite Ha, Hd].
      reflexivity.
    + unfold calls_on, AxRef in *. simpl.
      rewrite !list_lookup_alter_eq, Ha. done.
    + done.
  - intros a' e Hd. eexists. split_and!.
    + unfold _plot_boundary_panel, try_except.
      erewrite bind_raise; [|unfold delegate; by rewrite Ha, Hd].
      reflexivity.
    + unfold calls_on, AxRef in *. simpl.
      rewrite !list_lookup_alter_eq, Ha. done.
    + done.
  - intros plot a' e Hplot Hd. eexists. split_and!.
    + unfold _plot_atmospheric_overview. rewrite Hplot.
      erewrite bind_ok; [reflexivity|].
      unfold try_except, delegate. by rewrite Ha, Hd.
    + unfold calls_on, AxRef in *. simpl.
      rewrite !list_lookup_alter_eq, Ha. simpl. by rewrite <- app_assoc.
    + done.
Qed.

(** ** Size and title of the figure *)

Lemma same_head_preorder : PreOrder same_head.
Proof.
  split.
  - by intros s.
  - intros s1 s2 s3 [H1 H1'] [H2 H2']. unfold same_head in *. split; congruence.
Qed.

Lemma rendering_keeps_head self ax kw :
  preserves same_head (_plot_main_grid_panel self ax kw) ∧
  preserves same_head (_plot_boundary_panel self ax kw) ∧
  preserves same_head (_plot_data_locations_panel self ax kw) ∧
  preserves same_head (_plot_quality_metrics_panel self ax kw) ∧
  preserves same_head (_plot_validation_panel self ax kw) ∧
  preserves same_head (_plot_data_summary_panel self ax kw) ∧
  preserves same_head (_plot_timeseries_overview_panel self ax kw) ∧
  preserves same_head (_plot_model_info_panel self ax kw) ∧
  preserves same_head (_plot_depth_histogram self ax kw) ∧
  preserves same_head (_plot_element_size_histogram self ax kw) ∧
  preserves same_head (_plot_grid_statistics_table self ax kw) ∧
  preserves same_head (_plot_atmospheric_overview self ax kw) ∧
  preserves same_head (_plot_boundary_data_locations self ax kw) ∧
  preserves same_head (_plot_data_coverage_timeline self ax kw) ∧
  preserves same_head (_plot_atmospheric_timeseries_overview self ax kw) ∧
  preserves same_head (_plot_boundary_timeseries_overview self ax kw) ∧
  preserves same_head (_plot_data_quality_metrics self ax kw) ∧
  preserves same_head (_plot_data_statistics_table self ax kw).
Proof.
  apply (rendering_preserves same_head (PreOrder0 := same_head_preorder)).
  - by intros s f ax'.
  - by intros s m.
Qed.

Lemma hoare_ret {A} (P : State FS → Prop) (a : A) (Q : A → State FS → Prop) :
  (∀ s, P s → Q a s) → hoare P (ret a) Q.
Proof. intros HQ s a' s' HP [= <- <-]. auto. Qed.

Lemma hoare_bind {A B} (P : State FS → Prop) (m : M A) (k : A → M B) Q T :
  hoare P m Q → (∀ a, hoare (Q a) (k a) T) → hoare P (bind m k) T.
Proof.
  intros Hm Hk s b s' HP. unfold bind.
  destruct (m s) as [[a|e] s1] eqn:Hrun; [|done].
  intros Hrun'. eapply Hk; [by eapply Hm | done].
Qed.

Lemma hoare_assoc {A B C} P (m : M A) (f : A → M B) (k : B → M C) T :
  hoare P (bind m (λ a, bind (f a) k)) T → hoare P (bind (bind m f) k) T.
Proof. intros H s c s' HP. rewrite bind_assoc. by apply H. Qed.

Lemma hoare_ret_bind {A B} P (a : A) (k : A → M B) T :
  hoare P (k a) T → hoare P (bind (ret a) k) T.
Proof. done. Qed.

Lemma hoare_keeps_head {A} size cs (m : M A) :
  preserves same_head m → hoare (headed size cs) m (λ _, headed size cs).
Proof.
  intros Hm s a s' [Hsize Hcalls] Hrun. specialize (Hm s). rewrite Hrun in Hm.
  destruct Hm as [H1 H2]. simpl in *. unfold headed. split; congruence.
Qed.

Lemma hoare_plt_figure P size :
  hoare P (plt_figure size) (λ _, headed size []).
Proof. by intros s [] s' _ [= <-]. Qed.

Lemma hoare_fig_call size cs meth a kw :
  hoare (headed size cs) (fig_call meth a kw)
        (λ _, headed size (cs ++ [mkCall OnAxes meth a kw])).
Proof. intros s [] s' [Hsize Hcalls] [= <-]. unfold headed. simpl. by rewrite Hsize, Hcalls. Qed.

Lemma hoare_current_figure size cs :
  hoare (headed size cs) current_figure
        (λ fig s, headed size cs s ∧ figsize fig = size ∧ fig_calls fig = cs).
Proof. intros s fig s' [Hsize Hcalls] [= <- <-]. by split. Qed.

Lemma add_subplot_keeps_head spec proj : preserves same_head (add_subplot spec proj).
Proof. by intros s. Qed.

Lemma delegate_keeps_head ax d : preserves same_head (delegate ax d).
Proof.
  intros s. unfold delegate.
  destruct (fig_axes (figure s) !! ax) as [a|]; simpl; [|done].
  by destruct (d a).
Qed.

Lemma ax_call_keeps_head ax t meth a kw : preserves same_head (ax_call ax t meth a kw).
Proof. by intros s. Qed.

Lemma save_step_keeps_head self save_path :
  preserves same_head
    (match save_path with
     | Some p =>
         if truthy save_path then bind current_figure (λ fig, _save_plot self fig p)
         else ret tt
     | None => ret tt
     end).
Proof.
  destruct save_path as [p|]; [|done].
  destruct (truthy (Some p)); [|done].
  intros s. unfold same_head, bind, current_figure.
  destruct (_save_plot_returns self (figure s) p s) as [_ Hfig]. by rewrite Hfig.
Qed.

Ltac keeps_head_side :=
  lazymatch goal with
  | |- preserves same_head (add_subplot _ _) => apply add_subplot_keeps_head
  | |- preserves same_head (delegate _ _) => apply delegate_keeps_head
  | |- preserves same_head (set_title _ _) => apply ax_call_keeps_head
  | |- preserves same_head (match _ with _ => _ end) => apply save_step_keeps_head
  | |- preserves same_head (_ ?self ?ax ?kw) => apply (rendering_keeps_head self ax kw)
  end.

Ltac hoare_step :=
  lazymatch goal with
  | |- hoare _ (bind (bind _ _) _) _ => apply hoare_assoc
  | |- hoare _ (bind (ret _) _) _ => apply hoare_ret_bind
  | |- hoare _ (bind (plt_figure _) _) _ =>
      eapply hoare_bind; [apply hoare_plt_figure | intros ?]
  | |- hoare _ (bind (fig_call _ _ _) _) _ =>
      eapply hoare_bind; [apply hoare_fig_call | intros ?]
  | |- hoare _ (bind current_figure _) _ =>
      eapply hoare_bind; [apply hoare_current_figure | intros ?]
  | |- hoare _ (bind _ _) _ =>
      eapply hoare_bind; [apply hoare_keeps_head; keeps_head_side | intros ?]
  end.

Ltac headed_now :=
  apply hoare_ret; intros ? (_ & ? & ?); by split.

(** X11. The figure an entry point returns has the size that was asked for
    and carries one figure-level call: the overall title of the overview. *)
Theorem returned_figure_size_and_title self size v q d save_path kw s :
  let suptitle t extra :=
    mkCall OnAxes "suptitle" [VStr t]
      ([("fontsize", VInt 16); ("fontweight", VStr "bold")] ++ extra) in
  (∀ r s', plot_comprehensive_overview self size v q d save_path kw s = (Ok r, s') →
     figsize r.1 = size ∧
     fig_calls r.1 = [suptitle "SCHISM Model Overview" [("y", VFloat 0.98)]]) ∧
  (∀ r s', plot_grid_analysis_overview self size save_path kw s = (Ok r, s') →
     figsize r.1 = size ∧
     fig_calls r.1 = [suptitle "SCHISM Grid Analysis Overview" []]) ∧
  (∀ r s', plot_data_analysis_overview self size save_path kw s = (Ok r, s') →
     figsize r.1 = size ∧
     fig_calls r.1 = [suptitle "SCHISM Data Analysis Overview" []]).
Proof.
  intros suptitle. subst suptitle. split_and!; intros r s' Hrun.
  - assert (hoare (λ _, True)
              (plot_comprehensive_overview self size v q d save_path kw)
              (λ r _, figsize r.1 = size ∧
                      fig_calls r.1 = [mkCall OnAxes "suptitle" [VStr "SCHISM Model Overview"]
                        [("fontsize", VInt 16); ("fontweight", VStr "bold");
                         ("y", VFloat 0.98)]])) as H.
    { unfold plot_comprehensive_overview.
      destruct v, q, d; repeat (cbv beta zeta; hoare_step); headed_now. }
    by eapply H.
  - assert (hoare (λ _, True)
              (plot_grid_analysis_overview self size save_path kw)
              (λ r _, figsize r.1 = size ∧
                      fig_calls r.1 =
                        [mkCall OnAxes "suptitle" [VStr "SCHISM Grid Analysis Overview"]
                           [("fontsize", VInt 16); ("fontweight", VStr "bold")]])) as H.
    { unfold plot_grid_analysis_overview.
      repeat (cbv beta zeta; hoare_step); headed_now. }
    by eapply H.
  - assert (hoare (λ _, True)
              (plot_data_analysis_overview self size save_path kw)
              (λ r _, figsize r.1 = size ∧
                      fig_calls r.1 =
                        [mkCall OnAxes "suptitle" [VStr "SCHISM Data Analysis Overview"]
                           [("fontsize", VInt 16); ("fontweight", VStr "bold")]])) as H.
    { unfold plot_data_analysis_overview.
      repeat (cbv beta zeta; hoare_step); headed_now. }
    by eapply H.
Qed.

End composer.

(** ** The claims on concrete plotters, grids and disks *)

Local Open Scope float_scope.

(** C1, at a plotter with no grid whose grid plotter gives up: the grid
    analysis overview raises. *)
Lemma grid_analysis_overview_raises_witness :
  (plot_grid_analysis_overview Scenario.os Scenario.without_grid (16, 12) None tt
     Scenario.fresh).1
  = Raise (Exception "No grid available").
Proof.
  apply (grid_analysis_overview_raises Scenario.os Scenario.without_grid).
  intros a. reflexivity.
Defined.


(** C4 as stated fails at the threshold itself: a score of 0.8 is coloured
    orange, not green. *)
Lemma quality_color_at_threshold :
  ¬ (∀ v, ((0.8 <=? v) = true → quality_bar_color v = "green") ∧
          ((0.6 <=? v) = true → (v <? 0.8) = true → quality_bar_color v = "orange")).
Proof.
  intros H. destruct (H 0.8) as [Hgreen _].
  specialize (Hgreen eq_refl). vm_compute in Hgreen. discriminate.
Qed.

(** C4, at the scores 0.95, 0.75 and 0.5. *)
Lemma quality_chart_colors_witness :
  ∃ rest,
    draws (FS := Scenario.Disk) 0%nat (_plot_quality_metrics_chart 0%nat [("a", 0.95); ("b", 0.75); ("c", 0.5)])
      (mkCall OnAxes "barh"
         [VList [VStr "a"; VStr "b"; VStr "c"]; VList [VFloat 0.95; VFloat 0.75; VFloat 0.5]]
         [("color", VList [VStr "green"; VStr "orange"; VStr "red"])] :: rest).
Proof.
  destruct (quality_chart_colors (FS := Scenario.Disk) 0%nat
              [("a", 0.95); ("b", 0.75); ("c", 0.5)] ltac:(discriminate)) as [Hbars _].
  exact Hbars.
Defined.

(** C5 as stated fails between the two rules: a score of 0.85 is orange on
    the data quality chart and green on the grid quality chart. *)
Lemma quality_rules_differ :
  ¬ (∀ v, (0.8 <=? v) = true → (v <? 0.9) = true →
          data_quality_bar_color v = "orange" ∧ quality_bar_color v = "orange").
Proof.
  intros H. destruct (H 0.85 eq_refl eq_refl) as [_ Hgrid].
  vm_compute in Hgrid. discriminate.
Qed.

(** C6, at the statuses PASS, WARNING and UNKNOWN. *)
Lemma validation_colors_witness :
  ∃ rest,
    draws (FS := Scenario.Disk) 0%nat
      (_plot_validation_results 0%nat [("x", "PASS"); ("y", "WARNING"); ("z", "UNKNOWN")])
      (mkCall OnAxes "barh"
         [VList [VInt 0; VInt 1; VInt 2]; VList [VInt 1; VInt 1; VInt 1]]
         [("color", VList [VStr "green"; VStr "orange"; VStr "gray"]);
          ("alpha", VFloat 0.7)] :: rest).
Proof.
  destruct (validation_colors (FS := Scenario.Disk) 0%nat
              [("x", "PASS"); ("y", "WARNING"); ("z", "UNKNOWN")] ltac:(discriminate))
    as [Hbars _].
  exact Hbars.
Defined.

(** C7, at a grid of four nodes and two elements. *)
Lemma depth_statistics_skip_nan_witness :
  _calculate_grid_statistics Scenario.with_grid Scenario.fresh =
    (Ok [("Total Nodes", "4"); ("Total Elements", "2"); ("Min Depth", "1.00 m");
         ("Max Depth", "3.00 m"); ("Mean Depth", "2.00 m"); ("Depth Std", "0.82 m")],
     Scenario.fresh).
Proof.
  destruct (depth_statistics_skip_nan (FS := Scenario.Disk) Scenario.with_grid
              Scenario.four_nodes 4%nat 2%nat 0%nat tt eq_refl eq_refl eq_refl eq_refl)
    as (_ & Hstats & _).
  exact (Hstats Scenario.fresh).
Defined.

(** C8, at seven pairs: three rows, the last one empty from its second
    slot on. *)
Lemma statistics_table_layout_witness :
  (7 ≤ 3 * length (statistics_table_data Scenario.seven_pairs) < 7 + 3)%nat ∧
  (∃ row, statistics_table_data Scenario.seven_pairs !! 2%nat = Some row ∧
          row !! 0%nat = Some "g" ∧ row !! 1%nat = Some "7") ∧
  (∃ row, statistics_table_data Scenario.seven_pairs !! 2%nat = Some row ∧
          row !! 4%nat = Some "" ∧ row !! 5%nat = Some "").
Proof.
  destruct (statistics_table_layout (FS := Scenario.Disk) 0%nat Scenario.seven_pairs "Statistics"
              ltac:(discriminate)) as (_ & Hrows & _ & Hcell).
  split; [exact Hrows|]. split.
  - exact (Hcell 2%nat 0%nat ltac:(vm_compute; lia) ltac:(lia)).
  - exact (Hcell 2%nat 2%nat ltac:(vm_compute; lia) ltac:(lia)).
Defined.

(** C9, at a path that cannot be written: an error record, no exception. *)
Lemma save_failures_are_caught_witness :
  let saved :=
    _save_plot Scenario.os Scenario.without_grid (figure Scenario.one_region)
      (path_str "/proc/x/overview.png") Scenario.one_region in
  saved.1 = Ok tt ∧
  records saved.2 =
    [{| levelname := ERROR;
        msg := "Could not save plot to /proc/x/overview.png: [Errno 13] Permission denied" |}].
Proof.
  destruct (save_failures_are_caught Scenario.os Scenario.without_grid
              (figure Scenario.one_region) (path_str "/proc/x/overview.png")
              Scenario.one_region (16, 12) true true true tt)
    as (Hok & _ & _ & _ & _ & Herror & _).
  split; [exact Hok|].
  exact (Herror Scenario.denied (or_introl eq_refl)).
Defined.

(** C10, at a path that can be written: the data analysis overview leaves
    the figure in a new directory. *)
Lemma falsy_save_path_skips_saving_witness :
  let run save_path :=
    plot_data_analysis_overview Scenario.os Scenario.with_grid (16, 12) save_path tt
      Scenario.fresh in
  run (Some (path_str "")) = run None ∧
  disk (run None).2 = Scenario.empty_disk ∧
  Scenario.dirs (disk (run (Some (path_str "out/plots/overview.png"))).2) = ["out/plots"].
Proof.
  intros run. subst run.
  destruct (falsy_save_path_skips_saving Scenario.os Scenario.with_grid (16, 12)
              true true true tt Scenario.fresh)
    as ((_ & _ & Hfalsy) & (_ & _ & Hdisk) & Htruthy).
  split; [exact Hfalsy|]. split; [exact Hdisk|].
  destruct (plot_data_analysis_overview Scenario.os Scenario.with_grid (16, 12) None tt
              Scenario.fresh) as [[[fig axes]|e] s'] eqn:Hrun.
  - destruct (Htruthy (path_str "out/plots/overview.png") fig axes s' eq_refl)
      as (_ & _ & Hdata).
    rewrite (Hdata eq_refl). simpl in Hdisk.
    unfold _save_plot, try_except, bind, on_disk. simpl. rewrite Hdisk. reflexivity.
  - destruct (data_analysis_overview_regions Scenario.os Scenario.with_grid (16, 12) None tt
                Scenario.fresh) as (r & s'' & Hok & _).
    rewrite Hrun in Hok. discriminate.
Defined.



(** X10, at the boundary panel of a plotter whose grid plotter gives up. *)
Lemma collaborator_failure_shows_placeholder_witness :
  ∃ s',
    _plot_boundary_panel Scenario.without_grid 0%nat tt Scenario.one_region = (Ok tt, s') ∧
    calls_on 0%nat s' = Some [placeholder_call "Boundary data unavailable"] ∧
    records s' =
      [{| levelname := WARNING;
          msg := "Could not plot boundary panel: No grid available" |}].
Proof.
  destruct (collaborator_failure_shows_placeholder (FS := Scenario.Disk)
              Scenario.without_grid 0%nat tt Scenario.one_region _ eq_refl)
    as (_ & Hboundary & _).
  exact (Hboundary _ (Exception "No grid available") eq_refl).
Defined.
